(** * LLM inference gateway ([app/main.py]): a shallow embedding

    The service is a FastAPI application that relays requests to a local
    Ollama backend over HTTP.  Every handler of [app/main.py] is embedded
    as a program of a small monad [M] that

    - threads the list of effects performed so far (the requests sent to
      the backend and the sleeps), and
    - either returns a value or raises a Python exception.

    The backend is an oracle: given the effects performed so far and the
    request, it says whether httpx returns a response, times out, or fails
    in another way.  Logging is not modelled. *)

From Stdlib Require Import ZArith List String DecimalString Bool Lia Floats.
Import ListNotations.

Local Open Scope Z_scope.
Local Open Scope string_scope.
Set Warnings "-register-all,-inexact-float".

(** ** Python values

    The values the handlers manipulate are the ones [json.loads] produces
    (and the ones [json=...] serialises). *)

Inductive value : Type :=
| VNone
| VBool (b : bool)
| VInt (n : Z)
| VFloat (x : float)
| VStr (s : string)
| VList (items : list value)
| VDict (items : list (string * value)).

(** A dict is kept as the list of its items (its keys are unique); a key
    is looked up from the front. *)
Fixpoint lookup (key : string) (items : list (string * value)) : option value :=
  match items with
  | [] => None
  | (k, v) :: rest => if String.eqb key k then Some v else lookup key rest
  end.

(** [type(v).__name__], as it appears in the messages of [TypeError] and
    [AttributeError]. *)
Definition type_name (v : value) : string :=
  match v with
  | VNone => "NoneType"
  | VBool _ => "bool"
  | VInt _ => "int"
  | VFloat _ => "float"
  | VStr _ => "str"
  | VList _ => "list"
  | VDict _ => "dict"
  end.

(** An [Optional[T]] attribute put into a payload: [None] or the value. *)
Definition of_optional {A : Type} (inj : A -> value) (o : option A) : value :=
  match o with
  | Some a => inj a
  | None => VNone
  end.

(** [name in values] for a [str] [name]: a [str] is equal to no value of
    another type. *)
Definition str_in (name : string) (values : list value) : bool :=
  existsb (fun v => match v with VStr s => String.eqb name s | _ => false end) values.

(** ** Exceptions

    The three classes the [except] clauses of the handlers tell apart:
    [fastapi.HTTPException], [httpx.TimeoutException], and any other
    subclass of [Exception] (with its [str]). *)

Inductive exn : Type :=
| HTTPException (status_code : Z) (detail : string)
| TimeoutException (msg : string)
| Exception (msg : string).

Inductive result (A : Type) : Type :=
| Ok (a : A)
| Raise (e : exn).
Arguments Ok {A} a.
Arguments Raise {A} e.

(** ** HTTP exchanges with the backend *)

Inductive http_method : Type := GET | POST.

Record Request : Type := {
  method : http_method;
  url : string;
  json_body : option value;   (* the [json=] argument *)
  timeout : float             (* the [timeout=] argument, in seconds *)
}.

(** What [response.json()] does: return the decoded body or raise. *)
Inductive decoded : Type :=
| Decoded (v : value)
| Undecodable (msg : string).

Record Response : Type := {
  status_code : Z;
  text : string;
  json : decoded
}.

Inductive outcome : Type :=
| Responds (r : Response)
| TimesOut (msg : string)     (* httpx raises a [TimeoutException] *)
| Fails (msg : string).       (* httpx raises another exception *)

Inductive event : Type :=
| Called (r : Request)
| Slept (seconds : Z).

Definition trace : Type := list event.

(** The backend (and the network in front of it). *)
Definition backend : Type := trace -> Request -> outcome.

(** ** The monad of the handlers *)

Definition M (A : Type) : Type := trace -> result A * trace.

Definition ret {A : Type} (a : A) : M A := fun t => (Ok a, t).

Definition bind {A B : Type} (m : M A) (k : A -> M B) : M B :=
  fun t =>
    match m t with
    | (Ok a, t') => k a t'
    | (Raise e, t') => (Raise e, t')
    end.

Definition raise {A : Type} (e : exn) : M A := fun t => (Raise e, t).

(** [try: body / except ...: handler]; a handler that does not match
    re-raises. *)
Definition try_except {A : Type} (body : M A) (handler : exn -> M A) : M A :=
  fun t =>
    match body t with
    | (Ok a, t') => (Ok a, t')
    | (Raise e, t') => handler e t'
    end.

Declare Scope monad_scope.
Delimit Scope monad_scope with monad.
Notation "x <- m ;; k" := (bind m (fun x => k))
  (at level 100, m at next level, right associativity) : monad_scope.
Notation "m ;;; k" := (bind m (fun _ => k))
  (at level 100, right associativity) : monad_scope.
Local Open Scope monad_scope.

(** [mapM]: a list comprehension whose element expression may raise. *)
Fixpoint for_each {A B : Type} (f : A -> M B) (l : list A) : M (list B) :=
  match l with
  | [] => ret []
  | a :: rest =>
      b <- f a ;;
      bs <- for_each f rest ;;
      ret (b :: bs)
  end.

(** ** Operations on Python values that may raise *)

(** [obj.get(key, default)]. *)
Definition get (obj : value) (key : string) (default : value) : M value :=
  match obj with
  | VDict items =>
      ret (match lookup key items with Some v => v | None => default end)
  | _ => raise (Exception ("'" ++ type_name obj ++ "' object has no attribute 'get'"))
  end.

(** [obj[key]] for a [str] key. *)
Definition subscript (obj : value) (key : string) : M value :=
  match obj with
  | VDict items =>
      match lookup key items with
      | Some v => ret v
      | None => raise (Exception ("'" ++ key ++ "'"))
      end
  | VStr _ => raise (Exception "string indices must be integers")
  | VList _ => raise (Exception "list indices must be integers or slices, not str")
  | _ => raise (Exception ("'" ++ type_name obj ++ "' object is not subscriptable"))
  end.

Fixpoint characters (s : string) : list value :=
  match s with
  | EmptyString => []
  | String c rest => VStr (String c EmptyString) :: characters rest
  end.

(** The elements a [for] clause runs over. *)
Definition iterate (obj : value) : M (list value) :=
  match obj with
  | VList items => ret items
  | VDict items => ret (map (fun kv => VStr (fst kv)) items)
  | VStr s => ret (characters s)
  | _ => raise (Exception ("'" ++ type_name obj ++ "' object is not iterable"))
  end.

(** ** Configuration *)

Definition OLLAMA_BASE_URL : string := "http://localhost:11434".
Definition MODEL_NAME : string := "gemma2:2b".

(** ** The libraries under the handlers

    pydantic validates the arguments of a model's constructor, and
    Starlette defines [str] of an [HTTPException].  Both are outside this
    repository and both changed between releases; the handlers are
    embedded over any library that keeps a value of the declared type as
    it is. *)

Class Runtime : Type := {
  validate_str : value -> option string;                    (* [str] *)
  validate_int : value -> option Z;                         (* [int] *)
  validate_bool : value -> option bool;                     (* [bool] *)
  validate_dict : value -> option (list (string * value));  (* [Dict[str, Any]] *)
  (* [str(e)] of the [ValidationError] of a model, given the keyword
     arguments of the constructor *)
  validation_error_str : string -> list (string * value) -> string;
  (* [str(e)] of an [HTTPException] *)
  http_exception_str : Z -> string -> string;
  validate_str_VStr : forall s, validate_str (VStr s) = Some s;
  validate_int_VInt : forall n, validate_int (VInt n) = Some n;
  validate_bool_VBool : forall b, validate_bool (VBool b) = Some b;
  validate_dict_VDict : forall d, validate_dict (VDict d) = Some d
}.

(** ** Pydantic models *)

Record InferenceRequest : Type := {
  prompt : string;
  max_tokens : option Z;
  temperature : option float;
  top_p : option float;
  stream : option bool
}.

Record InferenceResponse : Type := {
  response : string;
  model : string;
  created_at : string;
  done : bool;
  total_duration : option Z;
  load_duration : option Z;
  prompt_eval_count : option Z;
  prompt_eval_duration : option Z;
  eval_count : option Z;
  eval_duration : option Z
}.

Record ModelInfo : Type := {
  name : string;
  size : Z;
  digest : string;
  details : list (string * value)
}.

Record HealthResponse : Type := {
  status : string;
  message : string;
  ollama_status : string;
  available_models : list string
}.

Section Gateway.

Variable ollama : backend.
Context {runtime : Runtime}.

(** [str(e)]. *)
Definition str (e : exn) : string :=
  match e with
  | HTTPException code detail => http_exception_str code detail
  | TimeoutException msg => msg
  | Exception msg => msg
  end.

(** [Optional[int]]. *)
Definition validate_optional_int (v : value) : option (option Z) :=
  match v with
  | VNone => Some None
  | _ => option_map Some (validate_int v)
  end.

(** [List[str]]. *)
Fixpoint validate_list_str (l : list value) : option (list string) :=
  match l with
  | [] => Some []
  | v :: rest =>
      match validate_str v, validate_list_str rest with
      | Some s, Some ss => Some (s :: ss)
      | _, _ => None
      end
  end.

(** The constructors of the response models: every argument is validated
    against the declared type of its field, and a [ValidationError] is
    raised when one of them is refused. *)

Definition new_InferenceResponse
    (response model created_at done total_duration load_duration
     prompt_eval_count prompt_eval_duration eval_count eval_duration : value)
    : M InferenceResponse :=
  match validate_str response, validate_str model, validate_str created_at,
        validate_bool done,
        validate_optional_int total_duration, validate_optional_int load_duration,
        validate_optional_int prompt_eval_count,
        validate_optional_int prompt_eval_duration,
        validate_optional_int eval_count, validate_optional_int eval_duration
  with
  | Some r, Some m, Some c, Some d, Some td, Some ld, Some pc, Some pd, Some ec, Some ed =>
      ret {| response := r; model := m; created_at := c; done := d;
             total_duration := td; load_duration := ld;
             prompt_eval_count := pc; prompt_eval_duration := pd;
             eval_count := ec; eval_duration := ed |}
  | _, _, _, _, _, _, _, _, _, _ =>
      raise (Exception (validation_error_str "InferenceResponse"
        [("response", response); ("model", model); ("created_at", created_at);
         ("done", done); ("total_duration", total_duration);
         ("load_duration", load_duration);
         ("prompt_eval_count", prompt_eval_count);
         ("prompt_eval_duration", prompt_eval_duration);
         ("eval_count", eval_count); ("eval_duration", eval_duration)]))
  end.

Definition new_ModelInfo (name size digest details : value) : M ModelInfo :=
  match validate_str name, validate_int size, validate_str digest,
        validate_dict details
  with
  | Some n, Some sz, Some dg, Some dt =>
      ret {| name := n; size := sz; digest := dg; details := dt |}
  | _, _, _, _ =>
      raise (Exception (validation_error_str "ModelInfo"
        [("name", name); ("size", size); ("digest", digest); ("details", details)]))
  end.

(** [status], [message] and [ollama_status] are always passed a [str]. *)
Definition new_HealthResponse (status message ollama_status : string)
    (available_models : list value) : M HealthResponse :=
  match validate_list_str available_models with
  | Some names =>
      ret {| status := status; message := message;
             ollama_status := ollama_status; available_models := names |}
  | None =>
      raise (Exception (validation_error_str "HealthResponse"
        [("status", VStr status); ("message", VStr message);
         ("ollama_status", VStr ollama_status);
         ("available_models", VList available_models)]))
  end.

(** [await client.get(...)] and [await client.post(...)]. *)
Definition send (r : Request) : M Response :=
  fun t =>
    (match ollama t r with
     | Responds resp => Ok resp
     | TimesOut msg => Raise (TimeoutException msg)
     | Fails msg => Raise (Exception msg)
     end, (t ++ [Called r])%list).

Definition client_get (url : string) (timeout : float) : M Response :=
  send {| method := GET; url := url; json_body := None; timeout := timeout |}.

Definition client_post (url : string) (body : value) (timeout : float) : M Response :=
  send {| method := POST; url := url; json_body := Some body; timeout := timeout |}.

Definition response_json (r : Response) : M value :=
  match json r with
  | Decoded v => ret v
  | Undecodable msg => raise (Exception msg)
  end.

(** [await asyncio.sleep(seconds)]. *)
Definition sleep (seconds : Z) : M unit :=
  fun t => (Ok tt, (t ++ [Slept seconds])%list).

Definition check_ollama_health : M bool :=
  try_except
    (response <- client_get (OLLAMA_BASE_URL ++ "/api/version") 5.0 ;;
     ret (status_code response =? 200)%Z)
    (fun e => ret false).

Definition get_available_models : M (list value) :=
  try_except
    (response <- client_get (OLLAMA_BASE_URL ++ "/api/tags") 10.0 ;;
     if (status_code response =? 200)%Z then
       data <- response_json response ;;
       models <- get data "models" (VList []) ;;
       items <- iterate models ;;
       for_each (fun model => subscript model "name") items
     else ret [])
    (fun e => ret []).

Definition ensure_model_loaded : M bool :=
  try_except
    (let payload :=
       VDict [("model", VStr MODEL_NAME);
              ("prompt", VStr "Hello");
              ("stream", VBool false);
              ("options", VDict [("num_predict", VInt 1)])] in
     response <- client_post (OLLAMA_BASE_URL ++ "/api/generate") payload 30.0 ;;
     ret (status_code response =? 200)%Z)
    (fun e => ret false).

(** [GET /health]. *)
Definition health_check : M HealthResponse :=
  ollama_healthy <- check_ollama_health ;;
  available_models <- get_available_models ;;
  let '(status, message, ollama_status) :=
    if ollama_healthy && str_in MODEL_NAME available_models then
      ("healthy", "Service is running and model is available", "running")
    else if ollama_healthy then
      ("partial", "Ollama is running but " ++ MODEL_NAME ++ " is not available",
       "running")
    else
      ("unhealthy", "Ollama service is not responding", "not responding") in
  new_HealthResponse status message ollama_status available_models.

(** The payload [generate_inference] sends to [/api/generate]. *)
Definition generate_payload (request : InferenceRequest) : value :=
  VDict [("model", VStr MODEL_NAME);
         ("prompt", VStr (prompt request));
         ("stream", of_optional VBool (stream request));
         ("options",
          VDict [("num_predict", of_optional VInt (max_tokens request));
                 ("temperature", of_optional VFloat (temperature request));
                 ("top_p", of_optional VFloat (top_p request))])].

(** [POST /inference]. *)
Definition generate_inference (request : InferenceRequest) : M InferenceResponse :=
  healthy <- check_ollama_health ;;
  if negb healthy then
    raise (HTTPException 503 "Ollama service is not available")
  else
    try_except
      (let payload := generate_payload request in
       resp <- client_post (OLLAMA_BASE_URL ++ "/api/generate") payload 60.0 ;;
       if negb (status_code resp =? 200)%Z then
         raise (HTTPException (status_code resp)
                  ("Ollama request failed: " ++ text resp))
       else
         result <- response_json resp ;;
         v_response <- get result "response" (VStr "") ;;
         v_model <- get result "model" (VStr MODEL_NAME) ;;
         v_created_at <- get result "created_at" (VStr "") ;;
         v_done <- get result "done" (VBool true) ;;
         v_total_duration <- get result "total_duration" VNone ;;
         v_load_duration <- get result "load_duration" VNone ;;
         v_prompt_eval_count <- get result "prompt_eval_count" VNone ;;
         v_prompt_eval_duration <- get result "prompt_eval_duration" VNone ;;
         v_eval_count <- get result "eval_count" VNone ;;
         v_eval_duration <- get result "eval_duration" VNone ;;
         new_InferenceResponse v_response v_model v_created_at v_done
           v_total_duration v_load_duration v_prompt_eval_count
           v_prompt_eval_duration v_eval_count v_eval_duration)
      (fun e =>
         match e with
         | TimeoutException _ =>
             raise (HTTPException 504
               "Request timed out. The model might be loading or the prompt is too complex.")
         | _ =>
             raise (HTTPException 500 ("Internal server error: " ++ str e))
         end).

(** [GET /models]. *)
Definition list_models : M (list value) :=
  models <- get_available_models ;;
  ret models.

(** [GET /model/{model_name}]. *)
Definition get_model_info (model_name : string) : M ModelInfo :=
  try_except
    (resp <- client_post (OLLAMA_BASE_URL ++ "/api/show")
               (VDict [("name", VStr model_name)]) 10.0 ;;
     if (status_code resp =? 404)%Z then
       raise (HTTPException 404 ("Model '" ++ model_name ++ "' not found"))
     else if negb (status_code resp =? 200)%Z then
       raise (HTTPException (status_code resp) "Failed to get model information")
     else
       data <- response_json resp ;;
       v_details <- get data "details" (VDict []) ;;
       v_name <- get v_details "name" (VStr model_name) ;;
       v_size <- get data "size" (VInt 0) ;;
       v_digest <- get data "digest" (VStr "") ;;
       v_details' <- get data "details" (VDict []) ;;
       new_ModelInfo v_name v_size v_digest v_details')
    (fun e =>
       match e with
       | HTTPException _ _ => raise e
       | _ => raise (HTTPException 500 ("Internal server error: " ++ str e))
       end).

(** The [for i in range(max_retries): ... else: ...] loop of
    [startup_event], for the iterations that remain: [true] when it is
    left by [break], [false] when the range is exhausted and the [else]
    branch runs. *)
Fixpoint wait_for_ollama (remaining : nat) : M bool :=
  match remaining with
  | O => ret false
  | S n =>
      healthy <- check_ollama_health ;;
      if healthy then ret true
      else (sleep 2 ;;; wait_for_ollama n)
  end.

Definition startup_event : M unit :=
  let max_retries := 30%nat in
  ready <- wait_for_ollama max_retries ;;
  if negb ready then ret tt
  else
    models <- get_available_models ;;
    if str_in MODEL_NAME models then
      (warmed <- ensure_model_loaded ;; ret tt)
    else ret tt.

End Gateway.

(** ** The requests the handlers send *)

Definition version_request : Request :=
  {| method := GET; url := OLLAMA_BASE_URL ++ "/api/version";
     json_body := None; timeout := 5.0 |}.

Definition tags_request : Request :=
  {| method := GET; url := OLLAMA_BASE_URL ++ "/api/tags";
     json_body := None; timeout := 10.0 |}.

Definition generate_request (payload : value) : Request :=
  {| method := POST; url := OLLAMA_BASE_URL ++ "/api/generate";
     json_body := Some payload; timeout := 60.0 |}.

Definition show_request (model_name : string) : Request :=
  {| method := POST; url := OLLAMA_BASE_URL ++ "/api/show";
     json_body := Some (VDict [("name", VStr model_name)]); timeout := 10.0 |}.

Definition warmup_request : Request :=
  {| method := POST; url := OLLAMA_BASE_URL ++ "/api/generate";
     json_body :=
       Some (VDict [("model", VStr MODEL_NAME); ("prompt", VStr "Hello");
                    ("stream", VBool false);
                    ("options", VDict [("num_predict", VInt 1)])]);
     timeout := 30.0 |}.

(** ** Vocabulary of the properties *)

(** The backend's version check succeeds after the effects [t]. *)
Definition version_succeeds (ollama : backend) (t : trace) : Prop :=
  exists r, ollama t version_request = Responds r /\ status_code r = 200.

Definition reachable (ollama : backend) (t : trace) : bool :=
  match ollama t version_request with
  | Responds r => (status_code r =? 200)%Z
  | _ => false
  end.

(** A program that performs no effect. *)
Definition pure {A : Type} (m : M A) : Prop :=
  forall t, exists r, m t = (r, t).

(** The types of the fields of a backend payload: a key is absent or
    bound to a value of the field's type. *)
Definition is_str (v : value) : bool :=
  match v with VStr _ => true | _ => false end.
Definition is_bool (v : value) : bool :=
  match v with VBool _ => true | _ => false end.
Definition is_int (v : value) : bool :=
  match v with VInt _ => true | _ => false end.
Definition is_optional_int (v : value) : bool :=
  match v with VInt _ | VNone => true | _ => false end.

Definition has_type (check : value -> bool) (items : list (string * value))
    (key : string) : bool :=
  match lookup key items with
  | Some v => check v
  | None => true
  end.

Definition optional_counters : list string :=
  ["total_duration"; "load_duration"; "prompt_eval_count";
   "prompt_eval_duration"; "eval_count"; "eval_duration"].

(** A well-formed payload of [/api/generate]. *)
Definition well_formed_generate (result : list (string * value)) : bool :=
  has_type is_str result "response" && has_type is_str result "model"
  && has_type is_str result "created_at" && has_type is_bool result "done"
  && forallb (has_type is_optional_int result) optional_counters.

(** A well-formed payload of [/api/show]. *)
Definition well_formed_show (data : list (string * value)) : bool :=
  has_type is_int data "size" && has_type is_str data "digest"
  && match lookup "details" data with
     | None => true
     | Some (VDict d) => has_type is_str d "name"
     | Some _ => false
     end.

(** A model entry of [/api/tags] and its name. *)
Definition named (entry name : value) : Prop :=
  exists items, entry = VDict items /\ lookup "name" items = Some name.

(** The fields of a payload as the response models hold them: the value
    bound to the key when it has the field's type, the default otherwise. *)
Definition str_field (items : list (string * value)) (key default : string)
    : string :=
  match lookup key items with Some (VStr s) => s | _ => default end.

Definition bool_field (items : list (string * value)) (key : string)
    (default : bool) : bool :=
  match lookup key items with Some (VBool b) => b | _ => default end.

Definition int_field (items : list (string * value)) (key : string)
    (default : Z) : Z :=
  match lookup key items with Some (VInt n) => n | _ => default end.

Definition counter_field (items : list (string * value)) (key : string)
    : option Z :=
  match lookup key items with Some (VInt n) => Some n | _ => None end.

(** The optional counters of an [InferenceResponse], by key. *)
Definition counter_fields : list (string * (InferenceResponse -> option Z)) :=
  [("total_duration", total_duration); ("load_duration", load_duration);
   ("prompt_eval_count", prompt_eval_count);
   ("prompt_eval_duration", prompt_eval_duration);
   ("eval_count", eval_count); ("eval_duration", eval_duration)]%string.

(** The effects of [n] failed attempts of the startup loop: a version
    request and a sleep of two seconds for each. *)
Fixpoint polls (n : nat) : trace :=
  match n with
  | O => []
  | S k => Called version_request :: Slept 2 :: polls k
  end.

(** The number of requests to a path of the backend, and of sleeps, in a
    trace. *)
Definition is_call_to (path : string) (e : event) : bool :=
  match e with
  | Called r => String.eqb (url r) (OLLAMA_BASE_URL ++ path)%string
  | Slept _ => false
  end.

Definition is_sleep (e : event) : bool :=
  match e with Slept _ => true | Called _ => false end.

Definition calls_to (path : string) (t : trace) : nat :=
  List.length (filter (is_call_to path) t).

Definition sleeps (t : trace) : nat := List.length (filter is_sleep t).

(** ** A concrete runtime

    pydantic in strict mode (a value of another type is refused) and the
    [__str__] of Starlette's [HTTPException],
    [f"{self.status_code}: {self.detail}"]. *)

Definition decimal (n : Z) : string := NilZero.string_of_int (Z.to_int n).

Definition strict_str (v : value) : option string :=
  match v with VStr s => Some s | _ => None end.
Definition strict_int (v : value) : option Z :=
  match v with VInt n => Some n | _ => None end.
Definition strict_bool (v : value) : option bool :=
  match v with VBool b => Some b | _ => None end.
Definition strict_dict (v : value) : option (list (string * value)) :=
  match v with VDict d => Some d | _ => None end.

#[export] Instance strict_runtime : Runtime := {|
  validate_str := strict_str;
  validate_int := strict_int;
  validate_bool := strict_bool;
  validate_dict := strict_dict;
  validation_error_str := fun cls _ => "validation error for " ++ cls;
  http_exception_str := fun code detail => decimal code ++ ": " ++ detail;
  validate_str_VStr := fun _ => eq_refl;
  validate_int_VInt := fun _ => eq_refl;
  validate_bool_VBool := fun _ => eq_refl;
  validate_dict_VDict := fun _ => eq_refl
|}.

(** ** Backends, requests and payloads used as examples *)

(** A backend that answers every request after seven seconds: the version
    check (timeout 5 s) times out, the other calls are answered. *)
Definition slow_backend : backend :=
  fun _ r =>
    if (timeout r <? 7)%float then TimesOut "timed out"
    else Responds {| status_code := 200;
                     text := "{'models': [{'name': 'gemma2:2b'}]}";
                     json := Decoded (VDict [("models",
                               VList [VDict [("name", VStr "gemma2:2b")]])]) |}.

(** A backend whose tags endpoint is out of order, and one that lists two
    models. *)
Definition tags_unavailable : backend :=
  fun _ _ => Responds {| status_code := 503; text := "unavailable";
                         json := Undecodable "Expecting value" |}.

Definition two_models : backend :=
  fun _ _ =>
    Responds {| status_code := 200; text := "";
                json := Decoded (VDict [("models",
                  VList [VDict [("name", VStr "llama3:8b"); ("size", VInt 4)];
                         VDict [("name", VStr "gemma2:2b")]])]) |}.

Definition hello_request : InferenceRequest :=
  {| prompt := "hi"; max_tokens := Some 5; temperature := Some 0.7%float;
     top_p := Some 0.9%float; stream := Some false |}.

Definition streaming_request : InferenceRequest :=
  {| prompt := "hi"; max_tokens := Some 512; temperature := Some 0.7%float;
     top_p := Some 0.9%float; stream := Some true |}.

(** A backend that answers every request with status 200 and the given
    payload. *)
Definition answering (payload : list (string * value)) : backend :=
  fun _ _ => Responds {| status_code := 200; text := "";
                         json := Decoded (VDict payload) |}.

Definition hello_payload : list (string * value) :=
  [("response", VStr "hello"); ("model", VStr "x"); ("created_at", VStr "t");
   ("done", VBool true)].

Definition timed_payload : list (string * value) :=
  [("response", VStr "hello"); ("model", VStr "x"); ("created_at", VStr "t");
   ("done", VBool true); ("total_duration", VInt 0); ("eval_count", VInt 12)].

(** A backend that is up but does not have the model: the generate call
    is answered with status 404. *)
Definition model_missing : backend :=
  fun _ r =>
    match method r with
    | GET => Responds {| status_code := 200; text := "";
                         json := Decoded (VDict [("version", VStr "0.3.0")]) |}
    | POST => Responds {| status_code := 404;
                          text := "model 'gemma2:2b' not found";
                          json := Undecodable "Expecting value" |}
    end.

(** A payload of [/api/show]; its [details] hold no [name]. *)
Definition show_payload : list (string * value) :=
  [("name", VStr "registry/gemma2"); ("size", VInt 1629518495);
   ("digest", VStr "8ccf136fdd52");
   ("details", VDict [("format", VStr "gguf"); ("family", VStr "gemma2")])].

(** A backend that refuses every connection, and one that starts to
    answer once two attempts have failed (four effects). *)
Definition never_up : backend := fun _ _ => Fails "All connection attempts failed".

Definition up_after_two : backend :=
  fun t r =>
    if (4 <=? List.length t)%nat then two_models t r
    else Fails "All connection attempts failed".

(** ** The example client ([examples/python_integration.py])

    [MicroLLMService.is_healthy] asks the gateway for [/health]; the
    gateway is, for the client, what the backend is for the gateway: an
    oracle that answers, times out or fails. *)

(** The truth value of a Python value. *)
Definition truthy (v : value) : bool :=
  match v with
  | VNone => false
  | VBool b => b
  | VInt n => negb (n =? 0)%Z
  | VFloat x => negb (x =? 0)%float
  | VStr s => negb (String.eqb s "")
  | VList items => match items with [] => false | _ :: _ => true end
  | VDict items => match items with [] => false | _ :: _ => true end
  end.

(** [v == s] for a [str] [s]. *)
Definition eq_str (v : value) (s : string) : bool :=
  match v with
  | VStr s' => String.eqb s' s
  | _ => false
  end.

Definition health_request (base_url : string) : Request :=
  {| method := GET; url := base_url ++ "/health"; json_body := None;
     timeout := 10 |}.

(** [is_healthy]; [A and B] is [B] when [A] holds and [False] (the value
    of the comparison) otherwise; the bare [except] catches everything. *)
Definition is_healthy (service : backend) (base_url : string) : M value :=
  try_except
    (response <- client_get service (base_url ++ "/health") 10 ;;
     if (status_code response =? 200)%Z then
       data <- response_json response ;;
       v_status <- get data "status" VNone ;;
       if eq_str v_status "healthy" then get data "model_loaded" (VBool false)
       else ret (VBool false)
     else ret (VBool false))
    (fun e => ret (VBool false)).

(** A body of [/health] with the four fields of [HealthResponse]. *)
Definition healthy_body : list (string * value) :=
  [("status", VStr "healthy");
   ("message", VStr "Service is running and model is available");
   ("ollama_status", VStr "running");
   ("available_models", VList [VStr "gemma2:2b"])].

(** A payload of [/api/tags] with an entry that has no name. *)
Definition unnamed_entry : backend :=
  answering [("models",
     VList [VDict [("name", VStr "gemma2:2b")]; VDict [("size", VInt 4)]])].

(** A backend that is up and times out on every [POST]. *)
Definition generate_times_out : backend :=
  fun _ r =>
    match method r with
    | GET => Responds {| status_code := 200; text := "";
                         json := Decoded (VDict [("version", VStr "0.3.0")]) |}
    | POST => TimesOut "timed out"
    end.

(** Payloads of [/api/show] whose [details] are not an object, and of
    [/api/generate] with a null counter. *)
Definition null_details : list (string * value) :=
  [("size", VInt 1); ("details", VNone)].

Definition null_counter_payload : list (string * value) :=
  [("response", VStr "hello"); ("model", VStr "llama3:8b");
   ("created_at", VStr "t"); ("done", VBool false); ("eval_count", VNone)].

(** A program that performs no effect and raises nothing but a plain
    [Exception] (neither an [HTTPException] nor a timeout). *)
Definition plain {A : Type} (m : M A) : Prop :=
  forall t, (exists a, m t = (Ok a, t))
            \/ (exists msg, m t = (Raise (Exception msg), t)).

(** * Properties *)

Local Open Scope list_scope.

(** ** The monad and the operations on values *)

Lemma pure_ret {A : Type} (a : A) : pure (ret a).
Proof. intros t. exists (Ok a). reflexivity. Qed.

Lemma pure_raise {A : Type} (e : exn) : pure (@raise A e).
Proof. intros t. exists (Raise e). reflexivity. Qed.

Lemma pure_bind {A B : Type} (m : M A) (k : A -> M B) :
  pure m -> (forall a, pure (k a)) -> pure (bind m k).
Proof.
  intros Hm Hk t. unfold bind.
  destruct (Hm t) as [r ->].
  destruct r as [a | e]; [apply Hk | exists (Raise e); reflexivity].
Qed.

Lemma pure_get obj key default : pure (get obj key default).
Proof. destruct obj; simpl; (apply pure_ret || apply pure_raise). Qed.

Lemma pure_subscript obj key : pure (subscript obj key).
Proof.
  destruct obj; simpl; try apply pure_raise.
  destruct (lookup key items); [apply pure_ret | apply pure_raise].
Qed.

Lemma pure_iterate obj : pure (iterate obj).
Proof. destruct obj; simpl; (apply pure_ret || apply pure_raise). Qed.

Lemma pure_for_each {A B : Type} (f : A -> M B) (l : list A) :
  (forall a, pure (f a)) -> pure (for_each f l).
Proof.
  intros Hf. induction l as [| a rest IH]; simpl.
  - apply pure_ret.
  - apply pure_bind; [apply Hf |].
    intros b. apply pure_bind; [exact IH |].
    intros bs. apply pure_ret.
Qed.

Create HintDb pure.
#[local] Hint Resolve pure_ret pure_raise pure_get pure_subscript pure_iterate : pure.

(** The list comprehension of [get_available_models] on entries that all
    carry a name. *)
Lemma for_each_named (entries names : list value) (t : trace) :
  Forall2 named entries names ->
  for_each (fun model => subscript model "name") entries t = (Ok names, t).
Proof.
  induction 1 as [| entry name entries names [items [-> Hname]] _ IH]; simpl.
  - reflexivity.
  - unfold bind at 1. simpl. rewrite Hname. simpl.
    unfold bind at 1. rewrite IH. reflexivity.
Qed.

Lemma str_in_In (name : string) (values : list value) :
  str_in name values = true <-> In (VStr name) values.
Proof.
  unfold str_in. rewrite existsb_exists. split.
  - intros [v [Hin Hv]]. destruct v; try discriminate.
    apply String.eqb_eq in Hv. subst. exact Hin.
  - intros Hin. exists (VStr name). split; [exact Hin | apply String.eqb_refl].
Qed.

Section GatewayFacts.

Variable ollama : backend.

Lemma reachable_version_succeeds (t : trace) :
  reachable ollama t = true <-> version_succeeds ollama t.
Proof.
  unfold reachable, version_succeeds. split.
  - destruct (ollama t version_request) as [r | |]; try discriminate.
    intros H. exists r. split; [reflexivity | apply Z.eqb_eq; exact H].
  - intros [r [-> H]]. apply Z.eqb_eq. exact H.
Qed.

(** [check_ollama_health] sends one version request, never raises, and
    answers whether the backend replied with status 200. *)
Lemma check_ollama_health_run (t : trace) :
  check_ollama_health ollama t
  = (Ok (reachable ollama t), (t ++ [Called version_request])%list).
Proof.
  unfold check_ollama_health, try_except, bind, client_get, send, reachable.
  fold version_request.
  destruct (ollama t version_request); reflexivity.
Qed.

(** [get_available_models] sends one tags request and never raises. *)
Lemma get_available_models_run (t : trace) :
  exists models,
    get_available_models ollama t
    = (Ok models, (t ++ [Called tags_request])%list).
Proof.
  unfold get_available_models, try_except.
  unfold bind at 1. unfold client_get, send. fold tags_request.
  destruct (ollama t tags_request) as [r | msg | msg];
    [| exists []; reflexivity ..].
  destruct (status_code r =? 200)%Z; [| exists []; reflexivity].
  match goal with
  | |- context [bind ?m ?k (t ++ ?c)%list] =>
      assert (Hp : pure (bind m k))
  end.
  { apply pure_bind.
    - unfold response_json. destruct (json r); auto with pure.
    - intros data. apply pure_bind; [auto with pure |].
      intros models. apply pure_bind; [auto with pure |].
      intros items. apply pure_for_each. auto with pure. }
  destruct (Hp (t ++ [Called tags_request])%list) as [res ->].
  destruct res as [models | e]; [exists models | exists []]; reflexivity.
Qed.

End GatewayFacts.

(** ** Listing the models *)

(** C6.  When the backend answers the tags request with a status other
    than 200, [get_available_models] returns the empty list (a value, not
    an exception); when it answers 200 with a payload whose [models] array
    holds named entries, the result is the names of the entries, in the
    order of the array. *)
Theorem get_available_models_names (ollama : backend) (t : trace) (r : Response) :
  ollama t tags_request = Responds r ->
  (status_code r <> 200 -> fst (get_available_models ollama t) = Ok [])
  /\ (forall data entries names,
        status_code r = 200 ->
        json r = Decoded (VDict data) ->
        lookup "models" data = Some (VList entries) ->
        Forall2 named entries names ->
        fst (get_available_models ollama t) = Ok names).
Proof.
  intros Hr.
  assert (Hsend : forall k : Response -> M (list value),
            bind (client_get ollama (OLLAMA_BASE_URL ++ "/api/tags")%string 10.0) k t
            = k r (t ++ [Called tags_request])%list).
  { intros k. unfold bind, client_get, send. fold tags_request.
    rewrite Hr. reflexivity. }
  unfold get_available_models, try_except. rewrite Hsend.
  split.
  - intros Hstatus. apply Z.eqb_neq in Hstatus. rewrite Hstatus. reflexivity.
  - intros data entries names Hstatus Hjson Hmodels Hnamed.
    apply Z.eqb_eq in Hstatus. rewrite Hstatus.
    unfold bind at 1. unfold response_json. rewrite Hjson. simpl.
    unfold bind at 1. simpl. rewrite Hmodels.
    unfold bind at 1. simpl.
    rewrite (for_each_named entries names _ Hnamed). reflexivity.
Qed.

Lemma get_available_models_names_witness :
  fst (get_available_models tags_unavailable []) = Ok []
  /\ fst (get_available_models two_models [])
     = Ok [VStr "llama3:8b"; VStr "gemma2:2b"].
Proof.
  split.
  - apply (get_available_models_names tags_unavailable [] _ eq_refl).
    simpl. lia.
  - apply (get_available_models_names two_models [] _ eq_refl)
      with (data := [("models",
                  VList [VDict [("name", VStr "llama3:8b"); ("size", VInt 4)];
                         VDict [("name", VStr "gemma2:2b")]])])
           (entries := [VDict [("name", VStr "llama3:8b"); ("size", VInt 4)];
                        VDict [("name", VStr "gemma2:2b")]]).
    + reflexivity.
    + reflexivity.
    + reflexivity.
    + repeat constructor; eexists; split; reflexivity.
Defined.

(** ** The health check *)

Section Health.

Variable ollama : backend.
Context {runtime : Runtime}.

Lemma validate_list_str_strings (names : list string) :
  validate_list_str (map VStr names) = Some names.
Proof.
  induction names as [| s rest IH]; simpl.
  - reflexivity.
  - rewrite validate_str_VStr, IH. reflexivity.
Qed.

(** The health check always sends the version request and then the tags
    request, whatever the answer to the first. *)
Lemma health_check_calls (t : trace) :
  snd (health_check ollama t)
  = (t ++ [Called version_request; Called tags_request])%list.
Proof.
  unfold health_check. unfold bind at 1. rewrite check_ollama_health_run.
  unfold bind at 1.
  destruct (get_available_models_run ollama (t ++ [Called version_request]))
    as [models ->].
  rewrite <- app_assoc. simpl.
  destruct (reachable ollama t && str_in MODEL_NAME models);
    [| destruct (reachable ollama t)];
    unfold new_HealthResponse;
    destruct (validate_list_str models); reflexivity.
Qed.

(** C1, amended.  When the tags request that follows the version
    request yields the names [names], the health check returns a state
    whose status is "healthy" exactly when the version check succeeds and
    the target model is among the names, "partial" exactly when the
    version check succeeds and the target model is not among them, and
    "unhealthy" exactly when the version check fails; in the three cases
    [available_models] is the list [names], as the tags request is sent
    whatever the version check said. *)
Theorem health_check_state (t : trace) (names : list string) :
  fst (get_available_models ollama (t ++ [Called version_request]))
  = Ok (map VStr names) ->
  exists h,
    fst (health_check ollama t) = Ok h
    /\ (status h = "healthy"
        <-> version_succeeds ollama t /\ In MODEL_NAME names)
    /\ (status h = "partial"
        <-> version_succeeds ollama t /\ ~ In MODEL_NAME names)
    /\ (status h = "unhealthy" <-> ~ version_succeeds ollama t)
    /\ available_models h = names.
Proof.
  intros Hmodels.
  unfold health_check. unfold bind at 1. rewrite check_ollama_health_run.
  unfold bind at 1.
  destruct (get_available_models_run ollama (t ++ [Called version_request]))
    as [models Hrun].
  rewrite Hrun in Hmodels |- *. simpl in Hmodels.
  injection Hmodels as ->.
  pose proof (reachable_version_succeeds ollama t) as Hreach.
  pose proof (str_in_In MODEL_NAME (map VStr names)) as Hin.
  assert (Hmap : In (VStr MODEL_NAME) (map VStr names) <-> In MODEL_NAME names).
  { rewrite in_map_iff. split.
    - intros [s [Hs Hi]]. injection Hs as ->. exact Hi.
    - intros Hi. exists MODEL_NAME. split; [reflexivity | exact Hi]. }
  destruct (reachable ollama t) eqn:Ereach;
    destruct (str_in MODEL_NAME (map VStr names)) eqn:Estr; simpl;
    unfold new_HealthResponse; rewrite validate_list_str_strings;
    eexists; (split; [reflexivity |]); simpl;
    intuition (discriminate || congruence).
Qed.

End Health.

Lemma health_check_state_witness :
  exists h,
    fst (health_check two_models []) = Ok h
    /\ (status h = "healthy"
        <-> version_succeeds two_models []
            /\ In MODEL_NAME ["llama3:8b"; "gemma2:2b"]%string)
    /\ (status h = "partial"
        <-> version_succeeds two_models []
            /\ ~ In MODEL_NAME ["llama3:8b"; "gemma2:2b"]%string)
    /\ (status h = "unhealthy" <-> ~ version_succeeds two_models [])
    /\ available_models h = ["llama3:8b"; "gemma2:2b"]%string.
Proof.
  apply (health_check_state two_models [] ["llama3:8b"; "gemma2:2b"]%string).
  reflexivity.
Defined.

(** C1, as stated, fails: with a backend that answers after seven
    seconds the version check (timeout 5 s) fails while the tags request
    (timeout 10 s) is answered, and the state returned is "unhealthy" with
    a model list that is not empty. *)
Lemma health_check_unhealthy_with_models :
  ~ version_succeeds slow_backend []
  /\ exists h,
       fst (health_check slow_backend []) = Ok h
       /\ status h = "unhealthy"
       /\ available_models h = ["gemma2:2b"]%string
       /\ available_models h <> [].
Proof.
  split.
  - intros [r [Hr _]]. vm_compute in Hr. discriminate Hr.
  - eexists. split; [vm_compute; reflexivity |].
    simpl. repeat split. discriminate.
Qed.

(** ** Inference *)

Section Sending.

Variable ollama : backend.

(** A request followed by the rest of the program. *)
Lemma send_bind {A : Type} (r : Request) (k : Response -> M A) (t : trace) :
  bind (send ollama r) k t
  = match ollama t r with
    | Responds resp => k resp (t ++ [Called r])
    | TimesOut msg => (Raise (TimeoutException msg), t ++ [Called r])
    | Fails msg => (Raise (Exception msg), t ++ [Called r])
    end.
Proof. unfold bind, send. destruct (ollama t r); reflexivity. Qed.

Lemma check_ollama_health_bind {A : Type} (k : bool -> M A) (t : trace) :
  bind (check_ollama_health ollama) k t
  = k (reachable ollama t) (t ++ [Called version_request]).
Proof. unfold bind. rewrite check_ollama_health_run. reflexivity. Qed.

End Sending.

Lemma pure_response_json (r : Response) : pure (response_json r).
Proof. unfold response_json. destruct (json r); auto with pure. Qed.

#[local] Hint Resolve pure_response_json : pure.

Section Validation.

Context {runtime : Runtime}.

Lemma validate_str_field items key default :
  has_type is_str items key = true ->
  validate_str (match lookup key items with Some v => v | None => VStr default end)
  = Some (str_field items key default).
Proof.
  unfold has_type, str_field.
  destruct (lookup key items) as [[]|]; try discriminate;
    intros _; apply validate_str_VStr.
Qed.

Lemma validate_bool_field items key default :
  has_type is_bool items key = true ->
  validate_bool (match lookup key items with Some v => v | None => VBool default end)
  = Some (bool_field items key default).
Proof.
  unfold has_type, bool_field.
  destruct (lookup key items) as [[]|]; try discriminate;
    intros _; apply validate_bool_VBool.
Qed.

Lemma validate_int_field items key default :
  has_type is_int items key = true ->
  validate_int (match lookup key items with Some v => v | None => VInt default end)
  = Some (int_field items key default).
Proof.
  unfold has_type, int_field.
  destruct (lookup key items) as [[]|]; try discriminate;
    intros _; apply validate_int_VInt.
Qed.

Lemma validate_counter_field items key :
  has_type is_optional_int items key = true ->
  validate_optional_int (match lookup key items with Some v => v | None => VNone end)
  = Some (counter_field items key).
Proof.
  unfold has_type, counter_field, validate_optional_int.
  destruct (lookup key items) as [[]|]; try discriminate; intros _;
    try reflexivity.
  rewrite validate_int_VInt. reflexivity.
Qed.

Lemma pure_new_InferenceResponse v1 v2 v3 v4 v5 v6 v7 v8 v9 v10 :
  pure (new_InferenceResponse v1 v2 v3 v4 v5 v6 v7 v8 v9 v10).
Proof.
  unfold new_InferenceResponse.
  destruct (validate_str v1), (validate_str v2), (validate_str v3),
    (validate_bool v4), (validate_optional_int v5), (validate_optional_int v6),
    (validate_optional_int v7), (validate_optional_int v8),
    (validate_optional_int v9), (validate_optional_int v10);
    auto with pure.
Qed.

Lemma pure_new_ModelInfo v1 v2 v3 v4 : pure (new_ModelInfo v1 v2 v3 v4).
Proof.
  unfold new_ModelInfo.
  destruct (validate_str v1), (validate_int v2), (validate_str v3),
    (validate_dict v4); auto with pure.
Qed.

End Validation.

Section Inference.

Variable ollama : backend.
Context {runtime : Runtime}.

Variable request : InferenceRequest.
Variable t : trace.

(** The effects of the handler up to the generate call. *)
Let sent : trace := t ++ [Called version_request].
Let generate : Request := generate_request (generate_payload request).

(** When the version check fails, the handler raises 503 and has sent
    nothing but the version request. *)
Lemma generate_inference_unreachable :
  ~ version_succeeds ollama t ->
  generate_inference ollama request t
  = (Raise (HTTPException 503 "Ollama service is not available"), sent).
Proof.
  intros Hdown. unfold generate_inference.
  rewrite check_ollama_health_bind.
  destruct (reachable ollama t) eqn:E; [| reflexivity].
  apply reachable_version_succeeds in E. contradiction.
Qed.

(** What the handler does once the version check has succeeded. *)
Lemma generate_inference_reachable :
  version_succeeds ollama t ->
  generate_inference ollama request t
  = try_except
      (resp <- send ollama generate ;;
       if negb (status_code resp =? 200)%Z then
         raise (HTTPException (status_code resp)
                  ("Ollama request failed: " ++ text resp)%string)
       else
         result <- response_json resp ;;
         v_response <- get result "response" (VStr "") ;;
         v_model <- get result "model" (VStr MODEL_NAME) ;;
         v_created_at <- get result "created_at" (VStr "") ;;
         v_done <- get result "done" (VBool true) ;;
         v_total_duration <- get result "total_duration" VNone ;;
         v_load_duration <- get result "load_duration" VNone ;;
         v_prompt_eval_count <- get result "prompt_eval_count" VNone ;;
         v_prompt_eval_duration <- get result "prompt_eval_duration" VNone ;;
         v_eval_count <- get result "eval_count" VNone ;;
         v_eval_duration <- get result "eval_duration" VNone ;;
         new_InferenceResponse v_response v_model v_created_at v_done
           v_total_duration v_load_duration v_prompt_eval_count
           v_prompt_eval_duration v_eval_count v_eval_duration)
      (fun e =>
         match e with
         | TimeoutException _ =>
             raise (HTTPException 504
               "Request timed out. The model might be loading or the prompt is too complex.")
         | _ =>
             raise (HTTPException 500 ("Internal server error: " ++ str e)%string)
         end) sent.
Proof.
  intros Hup. apply reachable_version_succeeds in Hup.
  unfold generate_inference. rewrite check_ollama_health_bind, Hup.
  reflexivity.
Qed.

(** The generate call is the only effect after the version check. *)
Lemma generate_inference_calls :
  version_succeeds ollama t ->
  snd (generate_inference ollama request t) = sent ++ [Called generate].
Proof.
  intros Hup. rewrite (generate_inference_reachable Hup).
  unfold try_except. rewrite send_bind.
  assert (Hhandler : forall e : exn, pure
    (match e with
     | TimeoutException _ =>
         raise (HTTPException 504
           "Request timed out. The model might be loading or the prompt is too complex.")
     | _ => @raise InferenceResponse
              (HTTPException 500 ("Internal server error: " ++ str e)%string)
     end)).
  { intros []; auto with pure. }
  destruct (ollama sent generate) as [resp | msg | msg].
  - destruct (negb (status_code resp =? 200)%Z).
    + reflexivity.
    + match goal with
      | |- context [bind ?m ?k (sent ++ ?c)] => assert (Hp : pure (bind m k))
      end.
      { repeat (apply pure_bind; [auto with pure | intros ?]).
        apply pure_new_InferenceResponse. }
      destruct (Hp (sent ++ [Called generate])) as [res ->].
      destruct res as [a | e]; [reflexivity |].
      destruct (Hhandler e (sent ++ [Called generate])) as [res' ->].
      reflexivity.
  - reflexivity.
  - reflexivity.
Qed.

(** A generate call that times out gives 504. *)
Lemma generate_inference_timeout (msg : string) :
  version_succeeds ollama t ->
  ollama sent generate = TimesOut msg ->
  fst (generate_inference ollama request t)
  = Raise (HTTPException 504
      "Request timed out. The model might be loading or the prompt is too complex.").
Proof.
  intros Hup Hgen. rewrite (generate_inference_reachable Hup).
  unfold try_except. rewrite send_bind, Hgen. reflexivity.
Qed.

(** Another failure of the generate call gives 500. *)
Lemma generate_inference_failure (msg : string) :
  version_succeeds ollama t ->
  ollama sent generate = Fails msg ->
  fst (generate_inference ollama request t)
  = Raise (HTTPException 500 ("Internal server error: " ++ msg)%string).
Proof.
  intros Hup Hgen. rewrite (generate_inference_reachable Hup).
  unfold try_except. rewrite send_bind, Hgen. reflexivity.
Qed.

(** A body that cannot be decoded gives 500 as well. *)
Lemma generate_inference_undecodable (r : Response) (msg : string) :
  version_succeeds ollama t ->
  ollama sent generate = Responds r ->
  status_code r = 200 ->
  json r = Undecodable msg ->
  fst (generate_inference ollama request t)
  = Raise (HTTPException 500 ("Internal server error: " ++ msg)%string).
Proof.
  intros Hup Hgen Hstatus Hjson. rewrite (generate_inference_reachable Hup).
  unfold try_except. rewrite send_bind, Hgen, Hstatus.
  unfold bind at 1. unfold response_json. rewrite Hjson. reflexivity.
Qed.

(** A status other than 200: the [HTTPException] that carries the
    backend's status is raised inside the [try] block, where the clause
    [except Exception] catches it and raises 500 in its place. *)
Lemma generate_inference_backend_error (r : Response) :
  version_succeeds ollama t ->
  ollama sent generate = Responds r ->
  status_code r <> 200 ->
  fst (generate_inference ollama request t)
  = Raise (HTTPException 500
      ("Internal server error: "
       ++ http_exception_str (status_code r)
            ("Ollama request failed: " ++ text r))%string).
Proof.
  intros Hup Hgen Hstatus. rewrite (generate_inference_reachable Hup).
  unfold try_except. rewrite send_bind, Hgen.
  apply Z.eqb_neq in Hstatus. rewrite Hstatus. reflexivity.
Qed.

(** The response built from a well-formed payload. *)
Lemma generate_inference_success (r : Response) (result : list (string * value)) :
  version_succeeds ollama t ->
  ollama sent generate = Responds r ->
  status_code r = 200 ->
  json r = Decoded (VDict result) ->
  well_formed_generate result = true ->
  fst (generate_inference ollama request t)
  = Ok {| response := str_field result "response" "";
          model := str_field result "model" MODEL_NAME;
          created_at := str_field result "created_at" "";
          done := bool_field result "done" true;
          total_duration := counter_field result "total_duration";
          load_duration := counter_field result "load_duration";
          prompt_eval_count := counter_field result "prompt_eval_count";
          prompt_eval_duration := counter_field result "prompt_eval_duration";
          eval_count := counter_field result "eval_count";
          eval_duration := counter_field result "eval_duration" |}.
Proof.
  intros Hup Hgen Hstatus Hjson Hwf. rewrite (generate_inference_reachable Hup).
  unfold try_except. rewrite send_bind, Hgen, Hstatus.
  unfold bind at 1. unfold response_json. rewrite Hjson.
  cbn [ret get bind negb Z.eqb Pos.eqb].
  unfold well_formed_generate, optional_counters in Hwf.
  cbn [forallb] in Hwf.
  repeat match goal with
         | H : (_ && _)%bool = true |- _ => apply andb_prop in H as [? ?]
         end.
  unfold new_InferenceResponse.
  rewrite !validate_str_field, validate_bool_field, !validate_counter_field
    by assumption.
  reflexivity.
Qed.

End Inference.

Lemma answering_version_succeeds payload t : version_succeeds (answering payload) t.
Proof. eexists. split; reflexivity. Defined.

(** *** The status of a failed inference *)

(** C2.  The code at a backend that answers the generate call with 404:
    the client does not receive the backend's status but 500, the
    [HTTPException] with status 404 having been caught by
    [except Exception]. *)
Theorem generate_inference_backend_404 :
  generate_inference model_missing hello_request []
  = (Raise (HTTPException 500
       "Internal server error: 404: Ollama request failed: model 'gemma2:2b' not found"),
     [Called version_request;
      Called (generate_request (generate_payload hello_request))]).
Proof. vm_compute. reflexivity. Qed.

(** *** The payload sent to the backend *)

(** C3, as stated, fails: a request with [stream=true] is sent on with
    [stream] true. *)
Lemma generate_inference_forwards_stream :
  exists items,
    snd (generate_inference (answering hello_payload) streaming_request [])
    = [Called version_request; Called (generate_request (VDict items))]
    /\ lookup "stream" items = Some (VBool true)
    /\ lookup "stream" items <> Some (VBool false).
Proof.
  eexists. split; [vm_compute; reflexivity |].
  split; [reflexivity | discriminate].
Qed.

(** C3, amended.  Once the version check has succeeded, the handler sends
    one generate request; its payload has the keys [model], [prompt],
    [stream] and [options], with the configured model name, the prompt of
    the request as it is, the [stream] attribute of the request as it is
    (false only when the request says so or leaves it out), and the
    options [num_predict], [temperature] and [top_p] taken from
    [max_tokens], [temperature] and [top_p]. *)
Theorem generate_inference_payload (ollama : backend) {runtime : Runtime}
    (request : InferenceRequest) (t : trace) :
  version_succeeds ollama t ->
  exists items,
    snd (generate_inference ollama request t)
    = t ++ [Called version_request; Called (generate_request (VDict items))]
    /\ map fst items = ["model"; "prompt"; "stream"; "options"]%string
    /\ lookup "model" items = Some (VStr MODEL_NAME)
    /\ lookup "prompt" items = Some (VStr (prompt request))
    /\ lookup "stream" items = Some (of_optional VBool (stream request))
    /\ lookup "options" items
       = Some (VDict [("num_predict", of_optional VInt (max_tokens request));
                      ("temperature", of_optional VFloat (temperature request));
                      ("top_p", of_optional VFloat (top_p request))]).
Proof.
  intros Hup. eexists. split.
  - rewrite (generate_inference_calls ollama request t Hup).
    rewrite <- app_assoc. reflexivity.
  - repeat split; reflexivity.
Qed.

Lemma generate_inference_payload_witness :
  exists items,
    snd (generate_inference (answering hello_payload) streaming_request [])
    = [] ++ [Called version_request; Called (generate_request (VDict items))]
    /\ map fst items = ["model"; "prompt"; "stream"; "options"]%string
    /\ lookup "model" items = Some (VStr MODEL_NAME)
    /\ lookup "prompt" items = Some (VStr "hi")
    /\ lookup "stream" items = Some (VBool true)
    /\ lookup "options" items
       = Some (VDict [("num_predict", VInt 512);
                      ("temperature", VFloat 0.7%float);
                      ("top_p", VFloat 0.9%float)]).
Proof.
  apply (generate_inference_payload (answering hello_payload) streaming_request []).
  apply answering_version_succeeds.
Defined.

(** *** The response built from the backend's payload *)

Section Success.

Variable ollama : backend.
Context {runtime : Runtime}.

Variable request : InferenceRequest.
Variable t : trace.
Variable r : Response.
Variable result : list (string * value).

(** The backend is up and answers the generate call with status 200 and
    a well-formed payload. *)
Hypothesis version_ok : version_succeeds ollama t.
Hypothesis generate_answer :
  ollama (t ++ [Called version_request])
    (generate_request (generate_payload request)) = Responds r.
Hypothesis status_ok : status_code r = 200.
Hypothesis payload : json r = Decoded (VDict result).
Hypothesis payload_ok : well_formed_generate result = true.

(** C4.  The [response] attribute of the [InferenceResponse] is the
    [response] string of the backend's payload, unchanged. *)
Theorem generate_inference_text (s : string) :
  lookup "response" result = Some (VStr s) ->
  exists resp,
    fst (generate_inference ollama request t) = Ok resp /\ response resp = s.
Proof.
  intros Hs. eexists. split.
  - apply (generate_inference_success ollama request t r result); assumption.
  - simpl. unfold str_field. rewrite Hs. reflexivity.
Qed.

(** C5.  Each of the six optional counters is [None] in the
    [InferenceResponse] when its key is absent from the payload, and is
    the payload's integer, zero included, when the key is present. *)
Theorem generate_inference_counters :
  exists resp,
    fst (generate_inference ollama request t) = Ok resp
    /\ forall key field, In (key, field) counter_fields ->
         (lookup key result = None -> field resp = None)
         /\ (forall n, lookup key result = Some (VInt n) -> field resp = Some n).
Proof.
  eexists. split.
  - apply (generate_inference_success ollama request t r result); assumption.
  - intros key field Hin. unfold counter_fields in Hin. simpl in Hin.
    repeat (destruct Hin as [Hin | Hin];
            [injection Hin as <- <-; simpl; unfold counter_field;
             split; [intros -> | intros n ->]; reflexivity |]).
    contradiction.
Qed.

(** C9.  A payload that lacks [response], [model], [created_at] or
    [done] still gives an [InferenceResponse]: the missing attribute is
    the empty string, the configured model name, the empty string and
    true, respectively. *)
Theorem generate_inference_defaults :
  exists resp,
    fst (generate_inference ollama request t) = Ok resp
    /\ (lookup "response" result = None -> response resp = ""%string)
    /\ (lookup "model" result = None -> model resp = MODEL_NAME)
    /\ (lookup "created_at" result = None -> created_at resp = ""%string)
    /\ (lookup "done" result = None -> done resp = true).
Proof.
  eexists. split.
  - apply (generate_inference_success ollama request t r result); assumption.
  - simpl. unfold str_field, bool_field.
    repeat split; intros ->; reflexivity.
Qed.

End Success.

Lemma generate_inference_text_witness :
  exists resp,
    fst (generate_inference (answering hello_payload) hello_request []) = Ok resp
    /\ response resp = "hello"%string.
Proof.
  apply (generate_inference_text (answering hello_payload) hello_request []
           _ hello_payload (answering_version_succeeds _ _)
           eq_refl eq_refl eq_refl eq_refl "hello"%string eq_refl).
Defined.

Lemma generate_inference_counters_witness :
  exists resp,
    fst (generate_inference (answering timed_payload) hello_request []) = Ok resp
    /\ forall key field, In (key, field) counter_fields ->
         (lookup key timed_payload = None -> field resp = None)
         /\ (forall n, lookup key timed_payload = Some (VInt n)
                       -> field resp = Some n).
Proof.
  apply (generate_inference_counters (answering timed_payload) hello_request []
           _ timed_payload (answering_version_succeeds _ _)
           eq_refl eq_refl eq_refl eq_refl).
Defined.

Lemma generate_inference_defaults_witness :
  exists resp,
    fst (generate_inference (answering []) hello_request []) = Ok resp
    /\ (lookup "response" [] = None -> response resp = ""%string)
    /\ (lookup "model" [] = None -> model resp = MODEL_NAME)
    /\ (lookup "created_at" [] = None -> created_at resp = ""%string)
    /\ (lookup "done" [] = None -> done resp = true).
Proof.
  apply (generate_inference_defaults (answering []) hello_request []
           _ [] (answering_version_succeeds _ _)
           eq_refl eq_refl eq_refl eq_refl).
Defined.

(** Absent and zero are told apart: the payload of [timed_payload] has
    [total_duration] 0 and no [load_duration]. *)
Example generate_inference_zero_is_not_absent :
  fst (generate_inference (answering timed_payload) hello_request [])
  = Ok {| response := "hello"; model := "x"; created_at := "t"; done := true;
          total_duration := Some 0; load_duration := None;
          prompt_eval_count := None; prompt_eval_duration := None;
          eval_count := Some 12; eval_duration := None |}.
Proof. reflexivity. Qed.

(** ** Model information *)

Section ModelInformation.

Variable ollama : backend.
Context {runtime : Runtime}.

Variable model_name : string.
Variable t : trace.
Variable r : Response.

Hypothesis show_answer : ollama t (show_request model_name) = Responds r.

Lemma get_model_info_answered :
  get_model_info ollama model_name t
  = try_except
      (if (status_code r =? 404)%Z then
         raise (HTTPException 404 ("Model '" ++ model_name ++ "' not found")%string)
       else if negb (status_code r =? 200)%Z then
         raise (HTTPException (status_code r) "Failed to get model information")
       else
         data <- response_json r ;;
         v_details <- get data "details" (VDict []) ;;
         v_name <- get v_details "name" (VStr model_name) ;;
         v_size <- get data "size" (VInt 0) ;;
         v_digest <- get data "digest" (VStr "") ;;
         v_details' <- get data "details" (VDict []) ;;
         new_ModelInfo v_name v_size v_digest v_details')
      (fun e =>
         match e with
         | HTTPException _ _ => raise e
         | _ => raise (HTTPException 500 ("Internal server error: " ++ str e)%string)
         end) (t ++ [Called (show_request model_name)]).
Proof.
  unfold get_model_info, try_except, client_post.
  fold (show_request model_name). rewrite send_bind, show_answer.
  reflexivity.
Qed.

Lemma get_model_info_not_found :
  status_code r = 404 ->
  fst (get_model_info ollama model_name t)
  = Raise (HTTPException 404 ("Model '" ++ model_name ++ "' not found")%string).
Proof.
  intros Hstatus. rewrite get_model_info_answered.
  unfold try_except. rewrite Hstatus. reflexivity.
Qed.

Lemma get_model_info_backend_error :
  status_code r <> 404 -> status_code r <> 200 ->
  fst (get_model_info ollama model_name t)
  = Raise (HTTPException (status_code r) "Failed to get model information").
Proof.
  intros H404 H200. rewrite get_model_info_answered.
  apply Z.eqb_neq in H404, H200.
  unfold try_except. rewrite H404, H200. reflexivity.
Qed.

(** The [ModelInfo] built from a well-formed payload. *)
Lemma get_model_info_success (data : list (string * value)) :
  status_code r = 200 ->
  json r = Decoded (VDict data) ->
  well_formed_show data = true ->
  fst (get_model_info ollama model_name t)
  = Ok {| name := match lookup "details" data with
                  | Some (VDict d) => str_field d "name" model_name
                  | _ => model_name
                  end;
          size := int_field data "size" 0;
          digest := str_field data "digest" "";
          details := match lookup "details" data with
                     | Some (VDict d) => d
                     | _ => []
                     end |}.
Proof.
  intros Hstatus Hjson Hwf. rewrite get_model_info_answered.
  unfold try_except. rewrite Hstatus.
  unfold bind at 1. unfold response_json. rewrite Hjson.
  unfold well_formed_show in Hwf.
  apply andb_prop in Hwf as [Hwf Hdetails].
  apply andb_prop in Hwf as [Hsize Hdigest].
  revert Hdetails.
  destruct (lookup "details" data) as [[]|] eqn:Hlookup;
    intros Hdetails; try discriminate Hdetails;
    cbn [ret get bind negb Z.eqb Pos.eqb]; rewrite Hlookup;
    cbn [ret get bind]; unfold new_ModelInfo;
    rewrite validate_int_field, (validate_str_field data) by assumption.
  - rewrite validate_str_field, validate_dict_VDict by assumption.
    reflexivity.
  - cbn [lookup]. rewrite validate_str_VStr, validate_dict_VDict.
    reflexivity.
Qed.

(** C7.  A backend 404 gives an [HTTPException] of status 404 that names
    the model; another status that is not 200 gives an [HTTPException]
    that carries that status; these two results differ; a 200 with a
    well-formed payload gives a [ModelInfo]. *)
Theorem get_model_info_statuses :
  (status_code r = 404 ->
   fst (get_model_info ollama model_name t)
   = Raise (HTTPException 404 ("Model '" ++ model_name ++ "' not found")%string))
  /\ (status_code r <> 404 -> status_code r <> 200 ->
      fst (get_model_info ollama model_name t)
      = Raise (HTTPException (status_code r) "Failed to get model information")
      /\ fst (get_model_info ollama model_name t)
         <> Raise (HTTPException 404
                     ("Model '" ++ model_name ++ "' not found")%string))
  /\ (status_code r = 200 ->
      forall data,
        json r = Decoded (VDict data) ->
        well_formed_show data = true ->
        exists info, fst (get_model_info ollama model_name t) = Ok info).
Proof.
  split; [exact get_model_info_not_found |]. split.
  - intros H404 H200. rewrite (get_model_info_backend_error H404 H200).
    split; [reflexivity |].
    intros Heq. injection Heq as Hcode _. contradiction.
  - intros Hstatus data Hjson Hwf. eexists.
    apply (get_model_info_success data Hstatus Hjson Hwf).
Qed.

(** C10.  On a 200 with a well-formed payload, the [name] of the
    [ModelInfo] is the [name] inside the payload's [details] and the
    requested model name when [details] or that key is absent (a [name]
    at the top of the payload is not read); [size] is 0, [digest] the
    empty string and [details] the empty dict when their keys are
    absent, and the payload's values otherwise. *)
Theorem get_model_info_fields (data : list (string * value)) :
  status_code r = 200 ->
  json r = Decoded (VDict data) ->
  well_formed_show data = true ->
  exists info,
    fst (get_model_info ollama model_name t) = Ok info
    /\ (forall d s, lookup "details" data = Some (VDict d) ->
                    lookup "name" d = Some (VStr s) -> name info = s)
    /\ (forall d, lookup "details" data = Some (VDict d) ->
                  lookup "name" d = None -> name info = model_name)
    /\ (lookup "details" data = None -> name info = model_name)
    /\ (lookup "size" data = None -> size info = 0)
    /\ (forall n, lookup "size" data = Some (VInt n) -> size info = n)
    /\ (lookup "digest" data = None -> digest info = ""%string)
    /\ (forall s, lookup "digest" data = Some (VStr s) -> digest info = s)
    /\ (lookup "details" data = None -> details info = [])
    /\ (forall d, lookup "details" data = Some (VDict d) -> details info = d).
Proof.
  intros Hstatus Hjson Hwf. eexists. split.
  - apply (get_model_info_success data Hstatus Hjson Hwf).
  - simpl. unfold str_field, int_field.
    repeat split; intros; 
      repeat match goal with
             | H : lookup _ _ = _ |- _ => rewrite H; clear H
             end; reflexivity.
Qed.

End ModelInformation.

Lemma get_model_info_statuses_witness :
  fst (get_model_info model_missing "nonexistent" [])
  = Raise (HTTPException 404 "Model 'nonexistent' not found")
  /\ fst (get_model_info tags_unavailable "gemma2:2b" [])
     = Raise (HTTPException 503 "Failed to get model information")
  /\ exists info,
       fst (get_model_info (answering show_payload) "gemma2:2b" []) = Ok info.
Proof.
  split; [| split].
  - apply (proj1 (get_model_info_statuses model_missing "nonexistent" []
                    _ eq_refl)).
    reflexivity.
  - apply (proj1 (proj2 (get_model_info_statuses tags_unavailable "gemma2:2b" []
                           _ eq_refl))); simpl; lia.
  - apply (proj2 (proj2 (get_model_info_statuses (answering show_payload)
                           "gemma2:2b" [] _ eq_refl)))
      with (data := show_payload); reflexivity.
Defined.

Lemma get_model_info_fields_witness :
  exists info,
    fst (get_model_info (answering show_payload) "gemma2:2b" []) = Ok info
    /\ (forall d s, lookup "details" show_payload = Some (VDict d) ->
                    lookup "name" d = Some (VStr s) -> name info = s)
    /\ (forall d, lookup "details" show_payload = Some (VDict d) ->
                  lookup "name" d = None -> name info = "gemma2:2b"%string)
    /\ (lookup "details" show_payload = None -> name info = "gemma2:2b"%string)
    /\ (lookup "size" show_payload = None -> size info = 0)
    /\ (forall n, lookup "size" show_payload = Some (VInt n) -> size info = n)
    /\ (lookup "digest" show_payload = None -> digest info = ""%string)
    /\ (forall s, lookup "digest" show_payload = Some (VStr s) -> digest info = s)
    /\ (lookup "details" show_payload = None -> details info = [])
    /\ (forall d, lookup "details" show_payload = Some (VDict d) ->
                  details info = d).
Proof.
  apply (get_model_info_fields (answering show_payload) "gemma2:2b" []
           _ eq_refl show_payload eq_refl eq_refl eq_refl).
Defined.

(** The handler sends the show request and nothing else, whatever the
    backend does. *)
Lemma get_model_info_calls (ollama : backend) {runtime : Runtime}
    (model_name : string) (t : trace) :
  snd (get_model_info ollama model_name t)
  = t ++ [Called (show_request model_name)].
Proof.
  unfold get_model_info, try_except, client_post.
  fold (show_request model_name). rewrite send_bind.
  destruct (ollama t (show_request model_name)) as [resp | msg | msg];
    [| reflexivity ..].
  match goal with
  | |- context [?body (t ++ ?c)] =>
      match type of body with M ModelInfo => assert (Hp : pure body) end
  end.
  { destruct (status_code resp =? 404)%Z; [auto with pure |].
    destruct (negb (status_code resp =? 200)%Z); [auto with pure |].
    repeat (apply pure_bind; [auto with pure | intros ?]).
    apply pure_new_ModelInfo. }
  destruct (Hp (t ++ [Called (show_request model_name)])) as [res ->].
  destruct res as [info | []]; reflexivity.
Qed.

(** The [name] at the top of the payload is not read: without a [name]
    in [details], the model is given the requested name. *)
Example get_model_info_top_level_name :
  fst (get_model_info (answering show_payload) "gemma2:2b" [])
  = Ok {| name := "gemma2:2b"; size := 1629518495; digest := "8ccf136fdd52";
          details := [("format", VStr "gguf"); ("family", VStr "gemma2")] |}.
Proof. reflexivity. Qed.

(** With an empty payload every field takes its default. *)
Example get_model_info_empty_payload :
  fst (get_model_info (answering []) "gemma2:2b" [])
  = Ok {| name := "gemma2:2b"; size := 0; digest := ""; details := [] |}.
Proof. reflexivity. Qed.

(** ** Startup *)

Section Startup.

Variable ollama : backend.

Lemma ensure_model_loaded_run (t : trace) :
  exists warmed,
    ensure_model_loaded ollama t = (Ok warmed, t ++ [Called warmup_request]).
Proof.
  unfold ensure_model_loaded, try_except, client_post.
  fold warmup_request. rewrite send_bind.
  destruct (ollama t warmup_request); eexists; reflexivity.
Qed.

(** The loop runs to the end of its range when every attempt fails. *)
Lemma wait_for_ollama_exhausted (n : nat) : forall t,
  (forall j, (j < n)%nat -> ~ version_succeeds ollama (t ++ polls j)) ->
  wait_for_ollama ollama n t = (Ok false, t ++ polls n).
Proof.
  induction n as [| n IH]; intros t Hdown; simpl.
  - rewrite app_nil_r. reflexivity.
  - rewrite check_ollama_health_bind.
    destruct (reachable ollama t) eqn:E.
    + apply reachable_version_succeeds in E.
      exfalso. apply (Hdown 0%nat); [lia |].
      simpl. rewrite app_nil_r. exact E.
    + unfold bind, sleep. rewrite <- app_assoc. simpl.
      rewrite (IH (t ++ [Called version_request; Slept 2])).
      * rewrite <- app_assoc. reflexivity.
      * intros j Hj. rewrite <- app_assoc. apply (Hdown (S j)). lia.
Qed.

(** The loop is left at the first attempt that succeeds. *)
Lemma wait_for_ollama_ready (n k : nat) : forall t,
  (k < n)%nat ->
  (forall j, (j < k)%nat -> ~ version_succeeds ollama (t ++ polls j)) ->
  version_succeeds ollama (t ++ polls k) ->
  wait_for_ollama ollama n t
  = (Ok true, t ++ polls k ++ [Called version_request]).
Proof.
  revert k. induction n as [| n IH]; intros k t Hk Hdown Hup; [lia |].
  simpl. rewrite check_ollama_health_bind.
  destruct k as [| k].
  - simpl in Hup. rewrite app_nil_r in Hup.
    apply reachable_version_succeeds in Hup. rewrite Hup. reflexivity.
  - destruct (reachable ollama t) eqn:E.
    + apply reachable_version_succeeds in E.
      exfalso. apply (Hdown 0%nat); [lia |].
      simpl. rewrite app_nil_r. exact E.
    + unfold bind, sleep. rewrite <- app_assoc. simpl.
      rewrite (IH k (t ++ [Called version_request; Slept 2])).
      * rewrite <- app_assoc. reflexivity.
      * lia.
      * intros j Hj. rewrite <- app_assoc. apply (Hdown (S j)). lia.
      * rewrite <- app_assoc. exact Hup.
Qed.

(** The loop never raises. *)
Lemma wait_for_ollama_returns (n : nat) : forall t,
  exists ready t', wait_for_ollama ollama n t = (Ok ready, t').
Proof.
  induction n as [| n IH]; intros t; simpl.
  - eexists. eexists. reflexivity.
  - rewrite check_ollama_health_bind.
    destruct (reachable ollama t).
    + eexists. eexists. reflexivity.
    + unfold bind, sleep. apply IH.
Qed.

(** What follows the loop when it was left by [break]. *)
Lemma startup_event_after_ready (t t' : trace) :
  wait_for_ollama ollama 30 t = (Ok true, t') ->
  exists rest,
    startup_event ollama t = (Ok tt, t' ++ Called tags_request :: rest)
    /\ (rest = [] \/ rest = [Called warmup_request]).
Proof.
  intros Hready. unfold startup_event.
  unfold bind at 1. rewrite Hready. cbn [negb].
  unfold bind at 1.
  destruct (get_available_models_run ollama t') as [models ->].
  destruct (str_in MODEL_NAME models).
  - unfold bind.
    destruct (ensure_model_loaded_run (t' ++ [Called tags_request]))
      as [warmed ->].
    exists [Called warmup_request]. rewrite <- app_assoc.
    split; [reflexivity | right; reflexivity].
  - exists []. split; [reflexivity | left; reflexivity].
Qed.

(** C8.  (1) When none of the thirty version checks succeeds, the
    startup sends thirty version requests, sleeps two seconds after each,
    and returns without any other request.  (2) When the check succeeds
    at an attempt, that version request is the last one: the startup goes
    on with the tags request and, at most, the warm-up generate call,
    whether the model is listed or not.  (3) In every execution the
    startup returns; it raises nothing. *)
Theorem startup_event_polling (t : trace) :
  ((forall j, (j < 30)%nat -> ~ version_succeeds ollama (t ++ polls j)) ->
   wait_for_ollama ollama 30 t = (Ok false, t ++ polls 30)
   /\ startup_event ollama t = (Ok tt, t ++ polls 30))
  /\ (forall k, (k < 30)%nat ->
        (forall j, (j < k)%nat -> ~ version_succeeds ollama (t ++ polls j)) ->
        version_succeeds ollama (t ++ polls k) ->
        exists rest,
          startup_event ollama t
          = (Ok tt, t ++ polls k ++ Called version_request
                      :: Called tags_request :: rest)
          /\ (rest = [] \/ rest = [Called warmup_request]))
  /\ (exists t', startup_event ollama t = (Ok tt, t')).
Proof.
  split; [| split].
  - intros Hdown.
    pose proof (wait_for_ollama_exhausted 30 t Hdown) as Hloop.
    split; [exact Hloop |].
    unfold startup_event. unfold bind at 1. rewrite Hloop. reflexivity.
  - intros k Hk Hdown Hup.
    pose proof (wait_for_ollama_ready 30 k t Hk Hdown Hup) as Hloop.
    destruct (startup_event_after_ready t _ Hloop) as [rest [Hrun Hrest]].
    exists rest. split; [| exact Hrest].
    rewrite Hrun. rewrite <- !app_assoc. reflexivity.
  - destruct (wait_for_ollama_returns 30 t) as [ready [t' Hloop]].
    destruct ready.
    + destruct (startup_event_after_ready t t' Hloop) as [rest [Hrun _]].
      eexists. exact Hrun.
    + exists t'. unfold startup_event. unfold bind at 1. rewrite Hloop.
      reflexivity.
Qed.

End Startup.

Lemma startup_event_polling_witness :
  (wait_for_ollama never_up 30 [] = (Ok false, polls 30)
   /\ startup_event never_up [] = (Ok tt, polls 30))
  /\ exists rest,
       startup_event up_after_two []
       = (Ok tt, polls 2 ++ Called version_request :: Called tags_request :: rest)
       /\ (rest = [] \/ rest = [Called warmup_request]).
Proof.
  split.
  - apply (proj1 (startup_event_polling never_up [])).
    intros j _ [r [Hr _]]. discriminate Hr.
  - apply (proj1 (proj2 (startup_event_polling up_after_two [])) 2%nat).
    + lia.
    + intros j Hj [r [Hr _]].
      destruct j as [| [| j]]; [discriminate Hr | discriminate Hr | lia].
    + eexists. split; reflexivity.
Defined.

(** The run on the backend that is up at the third attempt, in full: three
    version requests, two sleeps, the tags request and the warm-up call. *)
Example startup_event_up_after_two :
  startup_event up_after_two []
  = (Ok tt, [Called version_request; Slept 2; Called version_request; Slept 2;
             Called version_request; Called tags_request; Called warmup_request]).
Proof. reflexivity. Qed.

(** [n] failed attempts are [n] version requests and [n] sleeps, and no
    generate call. *)
Lemma polls_counts (n : nat) :
  calls_to "/api/version" (polls n) = n
  /\ sleeps (polls n) = n
  /\ calls_to "/api/generate" (polls n) = 0%nat.
Proof.
  unfold calls_to, sleeps.
  induction n as [| n [IHv [IHs IHg]]].
  - repeat split; reflexivity.
  - cbn [polls filter].
    change (is_call_to "/api/version" (Called version_request)) with true.
    change (is_call_to "/api/generate" (Called version_request)) with false.
    cbn [is_call_to is_sleep List.length].
    rewrite IHv, IHs, IHg. repeat split; reflexivity.
Qed.

(** [GET /models] returns what [get_available_models] returns. *)
Lemma list_models_run (ollama : backend) (t : trace) :
  list_models ollama t = get_available_models ollama t.
Proof.
  unfold list_models, bind.
  destruct (get_available_models_run ollama t) as [models ->]. reflexivity.
Qed.

(** * Further properties of the handlers *)

(** ** The probes *)

(** X1.  [check_ollama_health] never raises: it sends the version request
    (timeout 5 s) and nothing else, and answers [True] exactly when the
    backend replied with status 200; a timeout, a refused connection and
    any other status all give [False]. *)
Theorem check_ollama_health_verdict (ollama : backend) (t : trace) :
  exists healthy,
    check_ollama_health ollama t = (Ok healthy, t ++ [Called version_request])
    /\ (healthy = true <-> version_succeeds ollama t)
    /\ (forall msg, ollama t version_request = TimesOut msg -> healthy = false)
    /\ (forall msg, ollama t version_request = Fails msg -> healthy = false).
Proof.
  exists (reachable ollama t). split; [apply check_ollama_health_run |].
  split; [apply reachable_version_succeeds |].
  unfold reachable. split; intros msg ->; reflexivity.
Qed.

(** [model["name"]] on one entry: the name, or an exception when the
    entry is not an object with a [name]. *)
Lemma subscript_name (entry : value) (t : trace) :
  (exists name, named entry name /\ subscript entry "name" t = (Ok name, t))
  \/ ((forall name, ~ named entry name)
      /\ exists e, subscript entry "name" t = (Raise e, t)).
Proof.
  destruct entry as [| | | | | | d];
    try (right; split;
         [intros name [d' [Heq _]]; discriminate Heq
         | eexists; reflexivity]).
  simpl. destruct (lookup "name" d) as [name |] eqn:Hname.
  - left. exists name. split; [exists d; auto | reflexivity].
  - right. split; [| eexists; reflexivity].
    intros name [d' [Heq Hl]]. injection Heq as <-. congruence.
Qed.

Lemma for_each_names_inv (entries : list value) :
  forall names t t',
    for_each (fun model => subscript model "name") entries t = (Ok names, t') ->
    Forall2 named entries names.
Proof.
  induction entries as [| entry rest IH]; intros names t t' Hrun.
  - simpl in Hrun. injection Hrun as <- _. constructor.
  - cbn [for_each] in Hrun. unfold bind at 1 in Hrun.
    destruct (subscript_name entry t) as [[name [Hnamed Hs]] | [_ [e Hs]]];
      rewrite Hs in Hrun; [| discriminate Hrun].
    unfold bind at 1 in Hrun.
    destruct (for_each (fun model => subscript model "name") rest t)
      as [[names' | e] t''] eqn:Hrest; [| discriminate Hrun].
    injection Hrun as <- _.
    constructor; [exact Hnamed | exact (IH _ _ _ Hrest)].
Qed.

Lemma for_each_unnamed (entries : list value) (t : trace) :
  Exists (fun entry => forall name, ~ named entry name) entries ->
  exists e, for_each (fun model => subscript model "name") entries t = (Raise e, t).
Proof.
  induction entries as [| entry rest IH]; intros Hbad.
  - inversion Hbad.
  - cbn [for_each]. unfold bind at 1.
    destruct (subscript_name entry t) as [[name [Hnamed ->]] | [Hno [e ->]]].
    + unfold bind at 1.
      destruct IH as [e ->].
      { inversion Hbad as [? ? Hhead | ? ? Htail]; subst;
          [exfalso; exact (Hhead name Hnamed) | exact Htail]. }
      exists e. reflexivity.
    + exists e. reflexivity.
Qed.

(** X2.  Every name [get_available_models] returns was listed by the
    backend: a result that is not empty comes from an answer with status
    200 whose body is an object with a [models] array, and it is the names
    of the entries of that array, in order. *)
Theorem get_available_models_sound (ollama : backend) (t : trace)
    (models : list value) :
  fst (get_available_models ollama t) = Ok models ->
  models <> [] ->
  exists r data entries,
    ollama t tags_request = Responds r
    /\ status_code r = 200
    /\ json r = Decoded (VDict data)
    /\ lookup "models" data = Some (VList entries)
    /\ Forall2 named entries models.
Proof.
  intros Hrun Hne.
  assert (Hempty : @fst (result (list value)) trace (Ok [], t ++ [Called tags_request])
                   = Ok models -> False).
  { simpl. intros H. injection H as <-. apply Hne. reflexivity. }
  unfold get_available_models, try_except, client_get in Hrun.
  rewrite send_bind in Hrun. fold tags_request in Hrun.
  destruct (ollama t tags_request) as [r | msg | msg] eqn:Hout;
    [| exfalso; exact (Hempty Hrun) ..].
  destruct (status_code r =? 200)%Z eqn:Hstatus;
    [| exfalso; exact (Hempty Hrun)].
  apply Z.eqb_eq in Hstatus.
  unfold bind at 1, response_json in Hrun.
  destruct (json r) as [v | msg] eqn:Hjson; [| exfalso; exact (Hempty Hrun)].
  destruct v as [| | | | | | data]; try (exfalso; exact (Hempty Hrun)).
  cbn [ret get bind] in Hrun.
  destruct (lookup "models" data) as [listing |] eqn:Hlisting;
    [| exfalso; exact (Hempty Hrun)].
  destruct listing as [| | | | s | entries | items];
    try (exfalso; exact (Hempty Hrun)).
  - destruct s; exfalso; exact (Hempty Hrun).
  - cbn [iterate ret bind] in Hrun.
    destruct (for_each (fun model => subscript model "name") entries
                (t ++ [Called tags_request])) as [[names | e] t'] eqn:Hnames;
      [| exfalso; exact (Hempty Hrun)].
    simpl in Hrun. injection Hrun as ->.
    exists r, data, entries. repeat split; try assumption.
    exact (for_each_names_inv _ _ _ _ Hnames).
  - destruct items as [| [k v] items]; exfalso; exact (Hempty Hrun).
Qed.

Lemma get_available_models_sound_witness :
  exists r data entries,
    two_models [] tags_request = Responds r
    /\ status_code r = 200
    /\ json r = Decoded (VDict data)
    /\ lookup "models" data = Some (VList entries)
    /\ Forall2 named entries [VStr "llama3:8b"; VStr "gemma2:2b"].
Proof.
  apply (get_available_models_sound two_models []
           [VStr "llama3:8b"; VStr "gemma2:2b"] eq_refl).
  discriminate.
Defined.

(** X3.  The list is all or nothing: when one entry of the [models]
    array is not an object with a [name], [get_available_models] returns
    the empty list, whatever the other entries are. *)
Theorem get_available_models_unnamed_entry (ollama : backend) (t : trace)
    (r : Response) (data : list (string * value)) (entries : list value) :
  ollama t tags_request = Responds r ->
  status_code r = 200 ->
  json r = Decoded (VDict data) ->
  lookup "models" data = Some (VList entries) ->
  Exists (fun entry => forall name, ~ named entry name) entries ->
  fst (get_available_models ollama t) = Ok [].
Proof.
  intros Hout Hstatus Hjson Hlisting Hbad.
  unfold get_available_models, try_except, client_get.
  rewrite send_bind. fold tags_request. rewrite Hout, Hstatus.
  unfold bind at 1, response_json. rewrite Hjson.
  cbn [ret get bind Z.eqb Pos.eqb]. rewrite Hlisting. cbn [iterate ret bind].
  destruct (for_each_unnamed entries (t ++ [Called tags_request]) Hbad) as [e ->].
  reflexivity.
Qed.

Lemma get_available_models_unnamed_entry_witness :
  fst (get_available_models unnamed_entry []) = Ok [].
Proof.
  apply (get_available_models_unnamed_entry unnamed_entry [] _ _
           [VDict [("name", VStr "gemma2:2b")]; VDict [("size", VInt 4)]]
           eq_refl eq_refl eq_refl eq_refl).
  apply Exists_cons_tl. apply Exists_cons_hd.
  intros name [items [Heq Hname]]. injection Heq as <-. discriminate Hname.
Defined.

(** X4.  [ensure_model_loaded] never raises: it sends one generate
    request for the configured model, with streaming off and a cap of one
    token (timeout 30 s), and answers [True] exactly when the backend
    replied with status 200. *)
Theorem ensure_model_loaded_verdict (ollama : backend) (t : trace) :
  exists warmed payload,
    ensure_model_loaded ollama t
    = (Ok warmed,
       t ++ [Called {| method := POST;
                       url := (OLLAMA_BASE_URL ++ "/api/generate")%string;
                       json_body := Some (VDict payload);
                       timeout := 30 |}])
    /\ lookup "model" payload = Some (VStr MODEL_NAME)
    /\ lookup "stream" payload = Some (VBool false)
    /\ lookup "options" payload = Some (VDict [("num_predict", VInt 1)])
    /\ (warmed = true
        <-> exists r, ollama t warmup_request = Responds r /\ status_code r = 200).
Proof.
  unfold ensure_model_loaded, try_except, client_post.
  rewrite send_bind. fold warmup_request.
  destruct (ollama t warmup_request) as [r | msg | msg] eqn:Hout.
  - exists (status_code r =? 200)%Z. eexists.
    split; [reflexivity |]. repeat split; try reflexivity.
    + intros H. exists r. split; [reflexivity | apply Z.eqb_eq; exact H].
    + intros [r' [Hr' Hstatus]]. injection Hr' as <-.
      apply Z.eqb_eq. exact Hstatus.
  - exists false. eexists. split; [reflexivity |].
    repeat split; try reflexivity; try discriminate.
    intros [r [Hr _]]. discriminate Hr.
  - exists false. eexists. split; [reflexivity |].
    repeat split; try reflexivity; try discriminate.
    intros [r [Hr _]]. discriminate Hr.
Qed.

(** X5.  [GET /models] never fails: [list_models] sends the tags request
    and returns the list [get_available_models] gives, which is empty
    when the backend did not answer. *)
Theorem list_models_never_fails (ollama : backend) (t : trace) :
  exists models,
    list_models ollama t = (Ok models, t ++ [Called tags_request])
    /\ fst (get_available_models ollama t) = Ok models
    /\ ((forall r, ollama t tags_request <> Responds r) -> models = []).
Proof.
  destruct (get_available_models_run ollama t) as [models Hrun].
  exists models. split; [| split].
  - unfold list_models, bind. rewrite Hrun. reflexivity.
  - rewrite Hrun. reflexivity.
  - intros Hdown.
    assert (Hempty : fst (get_available_models ollama t) = Ok []).
    { unfold get_available_models, try_except, client_get.
      rewrite send_bind. fold tags_request.
      destruct (ollama t tags_request) as [r | msg | msg] eqn:Hout;
        [exfalso; exact (Hdown r eq_refl) | reflexivity ..]. }
    rewrite Hrun in Hempty. simpl in Hempty. injection Hempty as ->.
    reflexivity.
Qed.

(** ** The health check *)

Section HealthFields.

Variable ollama : backend.
Context {runtime : Runtime}.

(** The three branches of [health_check]. *)
Lemma health_check_branch (t : trace) (h : HealthResponse) :
  fst (health_check ollama t) = Ok h ->
  exists models,
    fst (get_available_models ollama (t ++ [Called version_request])) = Ok models
    /\ (status h, message h, ollama_status h)
       = (if reachable ollama t && str_in MODEL_NAME models then
            ("healthy", "Service is running and model is available", "running")
          else if reachable ollama t then
            ("partial",
             "Ollama is running but " ++ MODEL_NAME ++ " is not available",
             "running")
          else
            ("unhealthy", "Ollama service is not responding", "not responding"))%string.
Proof.
  intros Hrun. unfold health_check in Hrun.
  rewrite check_ollama_health_bind in Hrun. unfold bind at 1 in Hrun.
  destruct (get_available_models_run ollama (t ++ [Called version_request]))
    as [models Hmodels].
  rewrite Hmodels in Hrun |- *. exists models. split; [reflexivity |].
  destruct (reachable ollama t && str_in MODEL_NAME models);
    [| destruct (reachable ollama t)];
    unfold new_HealthResponse in Hrun;
    destruct (validate_list_str models); try discriminate Hrun;
    simpl in Hrun; injection Hrun as <-; reflexivity.
Qed.

(** X6.  In every state [health_check] returns, [ollama_status] is
    "running" exactly when the version check succeeded and "not
    responding" exactly when it failed, the status is one of "healthy",
    "partial" and "unhealthy", and the status is "unhealthy" exactly when
    [ollama_status] is "not responding". *)
Theorem health_check_ollama_status (t : trace) (h : HealthResponse) :
  fst (health_check ollama t) = Ok h ->
  (ollama_status h = "running"%string <-> version_succeeds ollama t)
  /\ (ollama_status h = "not responding"%string <-> ~ version_succeeds ollama t)
  /\ (status h = "healthy"%string \/ status h = "partial"%string
      \/ status h = "unhealthy"%string)
  /\ (status h = "unhealthy"%string <-> ollama_status h = "not responding"%string).
Proof.
  intros Hrun.
  destruct (health_check_branch t h Hrun) as [models [_ Hfields]].
  pose proof (reachable_version_succeeds ollama t) as Hreach.
  destruct (reachable ollama t); simpl in Hfields;
    [destruct (str_in MODEL_NAME models) |];
    injection Hfields as -> _ ->;
    intuition (discriminate || congruence).
Qed.

End HealthFields.

Lemma health_check_ollama_status_witness :
  (ollama_status {| status := "unhealthy";
                    message := "Ollama service is not responding";
                    ollama_status := "not responding";
                    available_models := ["gemma2:2b"]%string |}
   = "running"%string <-> version_succeeds slow_backend [])
  /\ ("not responding"%string = "not responding"%string
      <-> ~ version_succeeds slow_backend [])
  /\ ("unhealthy"%string = "healthy"%string
      \/ "unhealthy"%string = "partial"%string
      \/ "unhealthy"%string = "unhealthy"%string)
  /\ ("unhealthy"%string = "unhealthy"%string
      <-> "not responding"%string = "not responding"%string).
Proof.
  apply (health_check_ollama_status slow_backend []
           {| status := "unhealthy";
              message := "Ollama service is not responding";
              ollama_status := "not responding";
              available_models := ["gemma2:2b"]%string |}).
  reflexivity.
Defined.

(** ** What the handlers can raise *)

Lemma plain_ret {A : Type} (a : A) : plain (ret a).
Proof. intros t. left. exists a. reflexivity. Qed.

Lemma plain_raise {A : Type} (msg : string) : plain (@raise A (Exception msg)).
Proof. intros t. right. exists msg. reflexivity. Qed.

Lemma plain_bind {A B : Type} (m : M A) (k : A -> M B) :
  plain m -> (forall a, plain (k a)) -> plain (bind m k).
Proof.
  intros Hm Hk t. unfold bind.
  destruct (Hm t) as [[a ->] | [msg ->]]; [apply Hk |].
  right. exists msg. reflexivity.
Qed.

Lemma plain_get obj key default : plain (get obj key default).
Proof. destruct obj; simpl; (apply plain_ret || apply plain_raise). Qed.

Lemma plain_response_json (r : Response) : plain (response_json r).
Proof.
  unfold response_json. destruct (json r); [apply plain_ret | apply plain_raise].
Qed.

Create HintDb plain.
#[local] Hint Resolve plain_ret plain_raise plain_get plain_response_json : plain.

Section Plain.

Context {runtime : Runtime}.

Lemma plain_new_InferenceResponse v1 v2 v3 v4 v5 v6 v7 v8 v9 v10 :
  plain (new_InferenceResponse v1 v2 v3 v4 v5 v6 v7 v8 v9 v10).
Proof.
  unfold new_InferenceResponse.
  destruct (validate_str v1), (validate_str v2), (validate_str v3),
    (validate_bool v4), (validate_optional_int v5), (validate_optional_int v6),
    (validate_optional_int v7), (validate_optional_int v8),
    (validate_optional_int v9), (validate_optional_int v10);
    auto with plain.
Qed.

Lemma plain_new_ModelInfo v1 v2 v3 v4 : plain (new_ModelInfo v1 v2 v3 v4).
Proof.
  unfold new_ModelInfo.
  destruct (validate_str v1), (validate_int v2), (validate_str v3),
    (validate_dict v4); auto with plain.
Qed.

End Plain.

(** ** The outcomes of an inference *)

Section InferenceOutcomes.

Variable ollama : backend.
Context {runtime : Runtime}.

Variable request : InferenceRequest.
Variable t : trace.

(** An answer with status 200 gives a response or, when the body cannot
    be turned into one, the status 500. *)
Lemma generate_inference_answered (r : Response) :
  version_succeeds ollama t ->
  ollama (t ++ [Called version_request])
    (generate_request (generate_payload request)) = Responds r ->
  status_code r = 200 ->
  (exists resp, fst (generate_inference ollama request t) = Ok resp)
  \/ (exists msg,
        fst (generate_inference ollama request t)
        = Raise (HTTPException 500 ("Internal server error: " ++ msg)%string)).
Proof.
  intros Hup Hout Hstatus. rewrite (generate_inference_reachable _ _ _ Hup).
  unfold try_except. rewrite send_bind, Hout, Hstatus.
  cbn [negb Z.eqb Pos.eqb].
  match goal with
  | |- context [bind ?m ?k (?a ++ ?c)] => assert (Hp : plain (bind m k))
  end.
  { repeat (apply plain_bind; [auto with plain | intros ?]).
    apply plain_new_InferenceResponse. }
  match goal with
  | |- context [bind ?m ?k ?tr] => destruct (Hp tr) as [[resp ->] | [msg ->]]
  end.
  - left. exists resp. reflexivity.
  - right. exists msg. reflexivity.
Qed.

(** The cases of [generate_inference], by what the backend does. *)
Lemma generate_inference_cases :
  (~ version_succeeds ollama t
   /\ fst (generate_inference ollama request t)
      = Raise (HTTPException 503 "Ollama service is not available"))
  \/ (version_succeeds ollama t
      /\ ((exists msg,
             ollama (t ++ [Called version_request])
               (generate_request (generate_payload request)) = TimesOut msg
             /\ fst (generate_inference ollama request t)
                = Raise (HTTPException 504
                    "Request timed out. The model might be loading or the prompt is too complex."))
          \/ ((forall msg,
                 ollama (t ++ [Called version_request])
                   (generate_request (generate_payload request)) <> TimesOut msg)
              /\ ((exists resp, fst (generate_inference ollama request t) = Ok resp)
                  \/ (exists detail,
                        fst (generate_inference ollama request t)
                        = Raise (HTTPException 500 detail)))))).
Proof.
  destruct (reachable ollama t) eqn:Hreach.
  - apply reachable_version_succeeds in Hreach. right. split; [exact Hreach |].
    destruct (ollama (t ++ [Called version_request])
                (generate_request (generate_payload request)))
      as [r | msg | msg] eqn:Hout.
    + right. split; [intros msg; discriminate |].
      destruct (Z.eq_dec (status_code r) 200) as [Hstatus | Hstatus].
      * destruct (generate_inference_answered r Hreach Hout Hstatus)
          as [Hok | [msg Herr]]; [left; exact Hok |].
        right. eexists. exact Herr.
      * right. eexists.
        exact (generate_inference_backend_error _ _ _ r Hreach Hout Hstatus).
    + left. exists msg. split; [reflexivity |].
      exact (generate_inference_timeout _ _ _ msg Hreach Hout).
    + right. split; [intros msg'; discriminate |].
      right. eexists.
      exact (generate_inference_failure _ _ _ msg Hreach Hout).
  - assert (Hdown : ~ version_succeeds ollama t).
    { intros Hup. apply reachable_version_succeeds in Hup. congruence. }
    left. split; [exact Hdown |].
    rewrite (generate_inference_unreachable _ _ _ Hdown). reflexivity.
Qed.

(** X7.  [generate_inference] returns a response or raises an
    [HTTPException] whose status is 503, 504 or 500: no other exception
    leaves the handler, and no status of the backend reaches the
    client. *)
Theorem generate_inference_statuses :
  (exists resp, fst (generate_inference ollama request t) = Ok resp)
  \/ (exists code detail,
        fst (generate_inference ollama request t)
        = Raise (HTTPException code detail)
        /\ (code = 503 \/ code = 504 \/ code = 500)).
Proof.
  destruct generate_inference_cases
    as [[_ H503] | [_ [[msg [_ H504]] | [_ [Hok | [detail H500]]]]]].
  - right. eexists. eexists. split; [exact H503 | auto].
  - right. eexists. eexists. split; [exact H504 | auto].
  - left. exact Hok.
  - right. eexists. eexists. split; [exact H500 | auto].
Qed.

(** X8.  The status is 503 exactly when the version check fails, and
    then the version request is the only request sent: the generate call
    is not attempted. *)
Theorem generate_inference_503 :
  ((exists detail,
      fst (generate_inference ollama request t) = Raise (HTTPException 503 detail))
   <-> ~ version_succeeds ollama t)
  /\ (~ version_succeeds ollama t ->
      snd (generate_inference ollama request t) = t ++ [Called version_request]).
Proof.
  split.
  - split.
    + intros [detail H503] Hup.
      destruct generate_inference_cases
        as [[Hdown _] | [_ [[msg [_ H504]] | [_ [[resp Hok] | [detail' H500]]]]]];
        [exact (Hdown Hup) | congruence ..].
    + intros Hdown. eexists.
      rewrite (generate_inference_unreachable _ _ _ Hdown). reflexivity.
  - intros Hdown. rewrite (generate_inference_unreachable _ _ _ Hdown).
    reflexivity.
Qed.

(** X9.  The status is 504 exactly when the version check succeeds and
    the generate call times out; a timeout of the version check gives 503
    and no decoding or validation failure gives 504. *)
Theorem generate_inference_504 :
  (exists detail,
     fst (generate_inference ollama request t) = Raise (HTTPException 504 detail))
  <-> (version_succeeds ollama t
       /\ exists msg,
            ollama (t ++ [Called version_request])
              (generate_request (generate_payload request)) = TimesOut msg).
Proof.
  split.
  - intros [detail H504].
    destruct generate_inference_cases
      as [[_ H503] | [Hup [[msg [Hout _]] | [_ [[resp Hok] | [detail' H500]]]]]];
      try congruence.
    split; [exact Hup | exists msg; exact Hout].
  - intros [Hup [msg Hout]]. eexists.
    exact (generate_inference_timeout _ _ _ msg Hup Hout).
Qed.

End InferenceOutcomes.

(** ** Bodies the inference handler cannot use *)

(** X10.  An answer with status 200 whose body does not decode (as the
    line-delimited body of a streamed generation), or decodes to a value
    that is not an object, gives the status 500, with the text of the
    exception as detail. *)
Theorem generate_inference_bad_body (ollama : backend) {runtime : Runtime}
    (request : InferenceRequest) (t : trace) (r : Response) :
  version_succeeds ollama t ->
  ollama (t ++ [Called version_request])
    (generate_request (generate_payload request)) = Responds r ->
  status_code r = 200 ->
  (forall msg,
     json r = Undecodable msg ->
     fst (generate_inference ollama request t)
     = Raise (HTTPException 500 ("Internal server error: " ++ msg)%string))
  /\ (forall v,
        json r = Decoded v ->
        (forall items, v <> VDict items) ->
        fst (generate_inference ollama request t)
        = Raise (HTTPException 500
            ("Internal server error: '" ++ type_name v
             ++ "' object has no attribute 'get'")%string)).
Proof.
  intros Hup Hout Hstatus. split.
  - intros msg Hjson.
    exact (generate_inference_undecodable ollama request t r msg
             Hup Hout Hstatus Hjson).
  - intros v Hjson Hshape.
    rewrite (generate_inference_reachable _ _ _ Hup).
    unfold try_except. rewrite send_bind, Hout, Hstatus.
    unfold bind at 1, response_json. rewrite Hjson.
    destruct v; try reflexivity.
    exfalso. exact (Hshape items eq_refl).
Qed.

Lemma generate_inference_bad_body_witness :
  (forall msg,
     Decoded (VList [VStr "hello"]) = Undecodable msg ->
     fst (generate_inference
            (fun _ _ => Responds {| status_code := 200; text := "";
                                    json := Decoded (VList [VStr "hello"]) |})
            streaming_request [])
     = Raise (HTTPException 500 ("Internal server error: " ++ msg)%string))
  /\ (forall v,
        Decoded (VList [VStr "hello"]) = Decoded v ->
        (forall items, v <> VDict items) ->
        fst (generate_inference
               (fun _ _ => Responds {| status_code := 200; text := "";
                                       json := Decoded (VList [VStr "hello"]) |})
               streaming_request [])
        = Raise (HTTPException 500
            ("Internal server error: '" ++ type_name v
             ++ "' object has no attribute 'get'")%string)).
Proof.
  apply (generate_inference_bad_body
           (fun _ _ => Responds {| status_code := 200; text := "";
                                   json := Decoded (VList [VStr "hello"]) |})
           streaming_request []
           {| status_code := 200; text := "";
              json := Decoded (VList [VStr "hello"]) |}).
  - eexists. split; reflexivity.
  - reflexivity.
  - reflexivity.
Defined.

(** ** Fields passed through *)

(** X11.  With a well-formed payload, the [model], [created_at] and
    [done] of the response are the payload's when it has them (the model
    is the one the backend names, also when it is not the configured
    one), and a counter the payload binds to null is absent from the
    response. *)
Theorem generate_inference_passes_fields (ollama : backend) {runtime : Runtime}
    (request : InferenceRequest) (t : trace) (r : Response)
    (result : list (string * value)) :
  version_succeeds ollama t ->
  ollama (t ++ [Called version_request])
    (generate_request (generate_payload request)) = Responds r ->
  status_code r = 200 ->
  json r = Decoded (VDict result) ->
  well_formed_generate result = true ->
  exists resp,
    fst (generate_inference ollama request t) = Ok resp
    /\ (forall m, lookup "model" result = Some (VStr m) -> model resp = m)
    /\ (forall c, lookup "created_at" result = Some (VStr c) -> created_at resp = c)
    /\ (forall d, lookup "done" result = Some (VBool d) -> done resp = d)
    /\ (forall key field, In (key, field) counter_fields ->
          lookup key result = Some VNone -> field resp = None).
Proof.
  intros Hup Hout Hstatus Hjson Hwf. eexists. split.
  - exact (generate_inference_success ollama request t r result
             Hup Hout Hstatus Hjson Hwf).
  - simpl. unfold str_field, bool_field.
    split; [intros m -> ; reflexivity |].
    split; [intros c -> ; reflexivity |].
    split; [intros d -> ; reflexivity |].
    intros key field Hin Hnull. unfold counter_fields in Hin. simpl in Hin.
    repeat (destruct Hin as [Hin | Hin];
            [injection Hin as <- <-; simpl; unfold counter_field;
             rewrite Hnull; reflexivity |]).
    contradiction.
Qed.

Lemma generate_inference_passes_fields_witness :
  exists resp,
    fst (generate_inference (answering null_counter_payload) hello_request [])
    = Ok resp
    /\ (forall m, lookup "model" null_counter_payload = Some (VStr m)
                  -> model resp = m)
    /\ (forall c, lookup "created_at" null_counter_payload = Some (VStr c)
                  -> created_at resp = c)
    /\ (forall d, lookup "done" null_counter_payload = Some (VBool d)
                  -> done resp = d)
    /\ (forall key field, In (key, field) counter_fields ->
          lookup key null_counter_payload = Some VNone -> field resp = None).
Proof.
  apply (generate_inference_passes_fields (answering null_counter_payload)
           hello_request [] _ null_counter_payload
           (answering_version_succeeds _ _) eq_refl eq_refl eq_refl eq_refl).
Defined.

(** ** The payload determines the request *)

Lemma of_optional_inj {A : Type} (inj : A -> value) (o1 o2 : option A) :
  (forall a b, inj a = inj b -> a = b) ->
  (forall a, inj a <> VNone) ->
  of_optional inj o1 = of_optional inj o2 -> o1 = o2.
Proof.
  intros Hinj Hnone. destruct o1 as [a |], o2 as [b |]; simpl; intros Heq.
  - f_equal. apply Hinj. exact Heq.
  - exfalso. exact (Hnone a Heq).
  - exfalso. apply (Hnone b). symmetry. exact Heq.
  - reflexivity.
Qed.

(** X12.  No field of the request is lost when the payload is built: two
    requests with the same payload have the same prompt, the same
    [max_tokens], [temperature] and [top_p], and the same [stream]. *)
Theorem generate_payload_injective (r1 r2 : InferenceRequest) :
  generate_payload r1 = generate_payload r2 -> r1 = r2.
Proof.
  destruct r1 as [p1 m1 te1 tp1 s1], r2 as [p2 m2 te2 tp2 s2].
  unfold generate_payload. simpl. intros Heq.
  injection Heq as Hp Hs Hm Hte Htp.
  apply of_optional_inj in Hs; [| intros a b H; injection H; auto | discriminate].
  apply of_optional_inj in Hm; [| intros a b H; injection H; auto | discriminate].
  apply of_optional_inj in Hte; [| intros a b H; injection H; auto | discriminate].
  apply of_optional_inj in Htp; [| intros a b H; injection H; auto | discriminate].
  subst. reflexivity.
Qed.

Lemma generate_payload_injective_witness : hello_request = hello_request.
Proof.
  apply (generate_payload_injective hello_request hello_request). reflexivity.
Defined.

(** ** The outcomes of a model lookup *)

(** X13.  [get_model_info] sends the show request for the name it was
    given and nothing else; it returns a [ModelInfo], or raises an
    [HTTPException] that carries the status of a backend answer other than
    200, or raises an [HTTPException] of status 500: no other exception
    leaves the handler. *)
Theorem get_model_info_outcomes (ollama : backend) {runtime : Runtime}
    (model_name : string) (t : trace) :
  snd (get_model_info ollama model_name t)
  = t ++ [Called {| method := POST;
                    url := (OLLAMA_BASE_URL ++ "/api/show")%string;
                    json_body := Some (VDict [("name", VStr model_name)]);
                    timeout := 10 |}]
  /\ ((exists info, fst (get_model_info ollama model_name t) = Ok info)
      \/ (exists r detail,
            ollama t (show_request model_name) = Responds r
            /\ status_code r <> 200
            /\ fst (get_model_info ollama model_name t)
               = Raise (HTTPException (status_code r) detail))
      \/ (exists msg,
            fst (get_model_info ollama model_name t)
            = Raise (HTTPException 500 ("Internal server error: " ++ msg)%string))).
Proof.
  split; [apply get_model_info_calls |].
  destruct (ollama t (show_request model_name)) as [r | msg | msg] eqn:Hout.
  - rewrite (get_model_info_answered ollama model_name t r Hout).
    unfold try_except.
    destruct (status_code r =? 404)%Z eqn:H404.
    { apply Z.eqb_eq in H404. right. left. exists r. eexists.
      split; [reflexivity |]. split; [lia |]. rewrite H404. reflexivity. }
    destruct (status_code r =? 200)%Z eqn:H200.
    + cbn [negb].
      match goal with
      | |- context [bind ?m ?k (?a ++ ?c)] => assert (Hp : plain (bind m k))
      end.
      { repeat (apply plain_bind; [auto with plain | intros ?]).
        apply plain_new_ModelInfo. }
      match goal with
      | |- context [bind ?m ?k ?tr] => destruct (Hp tr) as [[info ->] | [msg ->]]
      end.
      * left. exists info. reflexivity.
      * right. right. exists msg. reflexivity.
    + apply Z.eqb_neq in H200. right. left. exists r. eexists.
      split; [reflexivity |]. split; [exact H200 | reflexivity].
  - right. right. exists msg.
    unfold get_model_info, try_except, client_post.
    fold (show_request model_name). rewrite send_bind, Hout. reflexivity.
  - right. right. exists msg.
    unfold get_model_info, try_except, client_post.
    fold (show_request model_name). rewrite send_bind, Hout. reflexivity.
Qed.

(** X14.  A show request that times out gives the status 500, as a
    connection failure does: [get_model_info] has no 504 of its own. *)
Theorem get_model_info_transport (ollama : backend) {runtime : Runtime}
    (model_name : string) (t : trace) (msg : string) :
  ollama t (show_request model_name) = TimesOut msg
  \/ ollama t (show_request model_name) = Fails msg ->
  fst (get_model_info ollama model_name t)
  = Raise (HTTPException 500 ("Internal server error: " ++ msg)%string).
Proof.
  intros Hout.
  unfold get_model_info, try_except, client_post.
  fold (show_request model_name). rewrite send_bind.
  destruct Hout as [-> | ->]; reflexivity.
Qed.

Lemma get_model_info_transport_witness :
  fst (get_model_info generate_times_out "gemma2:2b" [])
  = Raise (HTTPException 500 "Internal server error: timed out")
  /\ fst (get_model_info never_up "gemma2:2b" [])
     = Raise (HTTPException 500
                "Internal server error: All connection attempts failed").
Proof.
  split.
  - apply (get_model_info_transport generate_times_out "gemma2:2b" [] "timed out").
    left. reflexivity.
  - apply (get_model_info_transport never_up "gemma2:2b" []
             "All connection attempts failed").
    right. reflexivity.
Defined.

(** X15.  A payload whose [details] are bound to a value that is not an
    object (null, for one) gives the status 500: the default [{}] stands
    in for a missing key only. *)
Theorem get_model_info_bad_details (ollama : backend) {runtime : Runtime}
    (model_name : string) (t : trace) (r : Response)
    (data : list (string * value)) (v : value) :
  ollama t (show_request model_name) = Responds r ->
  status_code r = 200 ->
  json r = Decoded (VDict data) ->
  lookup "details" data = Some v ->
  (forall d, v <> VDict d) ->
  fst (get_model_info ollama model_name t)
  = Raise (HTTPException 500
      ("Internal server error: '" ++ type_name v
       ++ "' object has no attribute 'get'")%string).
Proof.
  intros Hout Hstatus Hjson Hdetails Hshape.
  rewrite (get_model_info_answered ollama model_name t r Hout).
  unfold try_except. rewrite Hstatus.
  unfold bind at 1, response_json. rewrite Hjson.
  cbn [ret get bind negb Z.eqb Pos.eqb]. rewrite Hdetails.
  destruct v; try reflexivity.
  exfalso. exact (Hshape items eq_refl).
Qed.

Lemma get_model_info_bad_details_witness :
  fst (get_model_info (answering null_details) "gemma2:2b" [])
  = Raise (HTTPException 500
      "Internal server error: 'NoneType' object has no attribute 'get'").
Proof.
  apply (get_model_info_bad_details (answering null_details) "gemma2:2b" []
           _ null_details VNone eq_refl eq_refl eq_refl eq_refl).
  discriminate.
Defined.

(** ** More on the startup *)

Lemma calls_to_app (path : string) (a b : trace) :
  calls_to path (a ++ b) = (calls_to path a + calls_to path b)%nat.
Proof. unfold calls_to. rewrite filter_app, length_app. reflexivity. Qed.

Lemma sleeps_app (a b : trace) : sleeps (a ++ b) = (sleeps a + sleeps b)%nat.
Proof. unfold sleeps. rewrite filter_app, length_app. reflexivity. Qed.

Lemma polls_tags (n : nat) : calls_to "/api/tags" (polls n) = 0%nat.
Proof.
  unfold calls_to. induction n as [| n IH]; [reflexivity |].
  cbn [polls filter].
  change (is_call_to "/api/tags" (Called version_request)) with false.
  cbn [is_call_to]. exact IH.
Qed.

Lemma polls_sleep_two (n : nat) :
  Forall (fun e => forall seconds, e = Slept seconds -> seconds = 2) (polls n).
Proof.
  induction n as [| n IH]; simpl; constructor.
  - intros seconds H. discriminate H.
  - constructor; [| exact IH].
    intros seconds H. injection H as <-. reflexivity.
Qed.

Section StartupBounds.

Variable ollama : backend.

(** The loop, for every backend: some attempts fail, each followed by a
    sleep, and either the range is exhausted or one more attempt
    succeeds. *)
Lemma wait_for_ollama_shape (n : nat) : forall t,
  exists k ready,
    (k <= n)%nat
    /\ (ready = true -> (k < n)%nat)
    /\ wait_for_ollama ollama n t
       = (Ok ready,
          t ++ polls k ++ (if ready then [Called version_request] else [])).
Proof.
  induction n as [| n IH]; intros t.
  - exists 0%nat, false. split; [lia |]. split; [discriminate |].
    simpl. rewrite app_nil_r. reflexivity.
  - simpl. rewrite check_ollama_health_bind.
    destruct (reachable ollama t).
    + exists 0%nat, true. split; [lia |]. split; [lia |]. reflexivity.
    + destruct (IH (t ++ [Called version_request; Slept 2]))
        as [k [ready [Hk [Hready Hrun]]]].
      exists (S k), ready. split; [lia |]. split; [intros H; apply Hready in H; lia |].
      unfold bind, sleep. rewrite <- app_assoc. simpl.
      rewrite Hrun. rewrite <- app_assoc. reflexivity.
Qed.

(** X16.  For every backend the startup returns, having sent at most
    thirty version requests, slept at most thirty times, two seconds each
    time (sixty seconds at most), and sent at most one tags request and at
    most one generate request. *)
Theorem startup_event_bounds (t : trace) :
  exists events,
    startup_event ollama t = (Ok tt, t ++ events)
    /\ (calls_to "/api/version" events <= 30)%nat
    /\ (sleeps events <= 30)%nat
    /\ Forall (fun e => forall seconds, e = Slept seconds -> seconds = 2) events
    /\ (calls_to "/api/tags" events <= 1)%nat
    /\ (calls_to "/api/generate" events <= 1)%nat.
Proof.
  destruct (wait_for_ollama_shape 30 t) as [k [ready [Hk [Hready Hloop]]]].
  destruct (polls_counts k) as [Hversion [Hsleeps Hgenerate]].
  pose proof (polls_tags k) as Htags.
  pose proof (polls_sleep_two k) as Htwo.
  destruct ready.
  - specialize (Hready eq_refl).
    destruct (startup_event_after_ready ollama t _ Hloop) as [rest [Hrun Hrest]].
    exists (polls k ++ Called version_request :: Called tags_request :: rest).
    split; [rewrite Hrun, <- !app_assoc; reflexivity |].
    rewrite !calls_to_app, sleeps_app, Hversion, Hsleeps, Hgenerate, Htags.
    destruct Hrest as [-> | ->].
    + repeat split; try (cbn; lia).
      apply Forall_app. split; [exact Htwo |].
      repeat constructor; intros seconds H; discriminate H.
    + repeat split; try (cbn; lia).
      apply Forall_app. split; [exact Htwo |].
      repeat constructor; intros seconds H; discriminate H.
  - exists (polls k). split.
    + unfold startup_event. unfold bind at 1. rewrite Hloop.
      rewrite app_nil_r. reflexivity.
    + rewrite Hversion, Hsleeps, Hgenerate, Htags.
      repeat split; try lia. exact Htwo.
Qed.

(** X17.  Once the backend is up, the warm-up follows the model list: the
    generate call is sent when the tags request lists the target model,
    and left out when it does not; in both cases the startup returns. *)
Theorem startup_event_warmup (t : trace) (k : nat) (models : list value) :
  (k < 30)%nat ->
  (forall j, (j < k)%nat -> ~ version_succeeds ollama (t ++ polls j)) ->
  version_succeeds ollama (t ++ polls k) ->
  fst (get_available_models ollama (t ++ polls k ++ [Called version_request]))
  = Ok models ->
  (In (VStr MODEL_NAME) models ->
   startup_event ollama t
   = (Ok tt, t ++ polls k ++ [Called version_request; Called tags_request;
                              Called warmup_request]))
  /\ (~ In (VStr MODEL_NAME) models ->
      startup_event ollama t
      = (Ok tt, t ++ polls k ++ [Called version_request; Called tags_request])).
Proof.
  intros Hk Hdown Hup Hmodels.
  pose proof (wait_for_ollama_ready ollama 30 k t Hk Hdown Hup) as Hloop.
  destruct (get_available_models_run ollama (t ++ polls k ++ [Called version_request]))
    as [models' Hrun].
  rewrite Hrun in Hmodels. simpl in Hmodels. injection Hmodels as ->.
  pose proof (str_in_In MODEL_NAME models) as Hin.
  assert (Hstart : startup_event ollama t
            = (if str_in MODEL_NAME models
               then (warmed <- ensure_model_loaded ollama ;; ret tt)%monad
               else ret tt)
                ((t ++ polls k ++ [Called version_request]) ++ [Called tags_request])).
  { unfold startup_event. unfold bind at 1. rewrite Hloop. cbn [negb].
    unfold bind at 1. rewrite Hrun. reflexivity. }
  rewrite Hstart. split; intros Hlisted.
  - apply Hin in Hlisted. rewrite Hlisted. unfold bind.
    destruct (ensure_model_loaded_run ollama
                ((t ++ polls k ++ [Called version_request]) ++ [Called tags_request]))
      as [warmed ->].
    rewrite <- !app_assoc. reflexivity.
  - destruct (str_in MODEL_NAME models); [exfalso; apply Hlisted, Hin; reflexivity |].
    rewrite <- !app_assoc. reflexivity.
Qed.

End StartupBounds.

Lemma startup_event_warmup_witness :
  (In (VStr MODEL_NAME) [VStr "llama3:8b"; VStr "gemma2:2b"] ->
   startup_event up_after_two []
   = (Ok tt, [] ++ polls 2 ++ [Called version_request; Called tags_request;
                               Called warmup_request]))
  /\ (~ In (VStr MODEL_NAME) [VStr "llama3:8b"; VStr "gemma2:2b"] ->
      startup_event up_after_two []
      = (Ok tt, [] ++ polls 2 ++ [Called version_request; Called tags_request])).
Proof.
  apply (startup_event_warmup up_after_two [] 2
           [VStr "llama3:8b"; VStr "gemma2:2b"]).
  - lia.
  - intros j Hj [r [Hr _]].
    destruct j as [| [| j]]; [discriminate Hr | discriminate Hr | lia].
  - eexists. split; reflexivity.
  - reflexivity.
Defined.

(** ** The health check and the inference handler *)

(** X18.  The two handlers agree on reachability: started in the same
    state of the backend, the health check says "unhealthy" exactly when
    the inference handler raises 503; when the health check says "healthy"
    or "partial", the generate request is sent (the inference handler does
    not look at the model list). *)
Theorem health_check_agrees_with_inference (ollama : backend) {runtime : Runtime}
    (request : InferenceRequest) (t : trace) (h : HealthResponse) :
  fst (health_check ollama t) = Ok h ->
  (status h = "unhealthy"%string
   <-> exists detail,
         fst (generate_inference ollama request t)
         = Raise (HTTPException 503 detail))
  /\ (status h <> "unhealthy"%string ->
      snd (generate_inference ollama request t)
      = t ++ [Called version_request;
              Called (generate_request (generate_payload request))]).
Proof.
  intros Hrun.
  destruct (health_check_branch ollama t h Hrun) as [models [_ Hfields]].
  pose proof (reachable_version_succeeds ollama t) as Hreach.
  destruct (reachable ollama t) eqn:Ereach.
  - assert (Hup : version_succeeds ollama t) by (apply Hreach; reflexivity).
    assert (Hstatus : status h <> "unhealthy"%string).
    { simpl in Hfields. destruct (str_in MODEL_NAME models);
        injection Hfields as -> _ _; discriminate. }
    split.
    + split; [intros H; contradiction |].
      intros [detail H503]. exfalso.
      destruct (generate_inference_cases ollama request t)
        as [[Hdown _] | [_ [[msg [_ H504]] | [_ [[resp Hok] | [detail' H500]]]]]];
        [exact (Hdown Hup) | congruence ..].
    + intros _. rewrite (generate_inference_calls ollama request t Hup).
      rewrite <- app_assoc. reflexivity.
  - assert (Hdown : ~ version_succeeds ollama t).
    { intros Hup. apply Hreach in Hup. discriminate Hup. }
    simpl in Hfields. injection Hfields as Hstatus _ _.
    split.
    + split; [| intros _; exact Hstatus].
      intros _. eexists.
      rewrite (generate_inference_unreachable ollama request t Hdown).
      reflexivity.
    + intros Hnot. contradiction.
Qed.

Lemma health_check_agrees_with_inference_witness :
  ("unhealthy"%string = "unhealthy"%string
   <-> exists detail,
         fst (generate_inference slow_backend hello_request [])
         = Raise (HTTPException 503 detail))
  /\ ("unhealthy"%string <> "unhealthy"%string ->
      snd (generate_inference slow_backend hello_request [])
      = [] ++ [Called version_request;
               Called (generate_request (generate_payload hello_request))]).
Proof.
  apply (health_check_agrees_with_inference slow_backend hello_request []
           {| status := "unhealthy";
              message := "Ollama service is not responding";
              ollama_status := "not responding";
              available_models := ["gemma2:2b"]%string |}).
  reflexivity.
Defined.

(** ** The example client *)

Lemma eq_str_true (v : value) (s : string) :
  eq_str v s = true <-> v = VStr s.
Proof.
  split.
  - destruct v; simpl; try discriminate.
    intros H. apply String.eqb_eq in H. subst. reflexivity.
  - intros ->. simpl. apply String.eqb_refl.
Qed.

(** X19.  [is_healthy] never raises and sends one request for [/health].
    Its result is true exactly when the answer has status 200 and a body
    that is an object with [status] "healthy" and a true [model_loaded];
    so for a body without a [model_loaded] key, as one made of the four
    fields of [HealthResponse], the result is [False] whatever the
    status says. *)
Theorem is_healthy_verdict (service : backend) (base_url : string) (t : trace) :
  exists v,
    is_healthy service base_url t = (Ok v, t ++ [Called (health_request base_url)])
    /\ (truthy v = true
        <-> exists r data loaded,
              service t (health_request base_url) = Responds r
              /\ status_code r = 200
              /\ json r = Decoded (VDict data)
              /\ lookup "status" data = Some (VStr "healthy")
              /\ lookup "model_loaded" data = Some loaded
              /\ truthy loaded = true)
    /\ (forall r data,
          service t (health_request base_url) = Responds r ->
          json r = Decoded (VDict data) ->
          lookup "model_loaded" data = None ->
          v = VBool false).
Proof.
  unfold is_healthy, try_except, client_get.
  rewrite send_bind. fold (health_request base_url).
  assert (Hfalse : forall P : Prop, (P -> False) ->
            (truthy (VBool false) = true <-> P)).
  { intros P HP. split; [discriminate | intros H; destruct (HP H)]. }
  destruct (service t (health_request base_url)) as [r | msg | msg] eqn:Hout.
  - destruct (status_code r =? 200)%Z eqn:Hstatus.
    + apply Z.eqb_eq in Hstatus.
      unfold bind at 1, response_json.
      destruct (json r) as [body | msg] eqn:Hjson.
      * destruct body as [| | | | | | data];
          try (exists (VBool false); split; [reflexivity |];
               split; [apply Hfalse; intros [r' [data [m [Hr' [_ [Hj _]]]]]];
                       injection Hr' as <-; congruence
                      | intros r' data Hr' Hj; injection Hr' as <-; congruence]).
        cbn [ret get bind].
        destruct (eq_str (match lookup "status" data with
                          | Some v => v
                          | None => VNone
                          end) "healthy") eqn:Hhealthy.
        -- apply eq_str_true in Hhealthy.
           assert (Hs : lookup "status" data = Some (VStr "healthy")).
           { destruct (lookup "status" data); [congruence | discriminate]. }
           eexists. split; [reflexivity |]. split.
           ++ split.
              ** intros Htrue.
                 destruct (lookup "model_loaded" data) as [m |] eqn:Hm;
                   [| discriminate Htrue].
                 exists r, data, m. auto 10.
              ** intros [r' [data' [m [Hr' [_ [Hj [_ [Hm Htrue]]]]]]]].
                 injection Hr' as <-. rewrite Hjson in Hj. injection Hj as <-.
                 rewrite Hm. exact Htrue.
           ++ intros r' data' Hr' Hj Hm.
              injection Hr' as <-. rewrite Hjson in Hj. injection Hj as <-.
              rewrite Hm. reflexivity.
        -- exists (VBool false). split; [reflexivity |]. split.
           ++ apply Hfalse.
              intros [r' [data' [m [Hr' [_ [Hj [Hs _]]]]]]].
              injection Hr' as <-. rewrite Hjson in Hj. injection Hj as <-.
              rewrite Hs in Hhealthy. simpl in Hhealthy. discriminate Hhealthy.
           ++ reflexivity.
      * exists (VBool false). split; [reflexivity |]. split.
        -- apply Hfalse. intros [r' [data [m [Hr' [_ [Hj _]]]]]].
           injection Hr' as <-. congruence.
        -- reflexivity.
    + apply Z.eqb_neq in Hstatus.
      exists (VBool false). split; [reflexivity |]. split.
      * apply Hfalse. intros [r' [data [m [Hr' [Hs _]]]]].
        injection Hr' as <-. contradiction.
      * reflexivity.
  - exists (VBool false). split; [reflexivity |]. split.
    + apply Hfalse. intros [r' [data [m [Hr' _]]]]. discriminate Hr'.
    + reflexivity.
  - exists (VBool false). split; [reflexivity |]. split.
    + apply Hfalse. intros [r' [data [m [Hr' _]]]]. discriminate Hr'.
    + reflexivity.
Qed.

(** The client on a gateway that reports "healthy": the body has no
    [model_loaded], and [is_healthy] is [False]. *)
Example is_healthy_on_healthy_body :
  fst (is_healthy (answering healthy_body) "http://localhost:8100" [])
  = Ok (VBool false).
Proof. reflexivity. Qed.
